(** * Marvin: the DRP datamodel registry and the Map loaders

    A shallow embedding of two modules of the Marvin survey toolkit,

    - [python/marvin/utils/datamodel/drp/base.py]: [DRPDataModel],
      [DataCubeList], [DataCube], [SpectrumList], [Spectrum];
    - [python/marvin/tools/map.py]: [Map.__init__] and its three loaders,

    followed by the properties of their lookup, append and load operations.

    Python values are embedded as follows.  Exceptions are data: a
    computation that can raise returns a [result].  Objects that the code
    mutates and shares live in a heap indexed by object identity.  Strings
    are byte strings, and [lower] / [upper] act on the ASCII letters.  What
    the two modules import from elsewhere (the fuzzy list, the registry of
    map properties, the remote interaction, the version parser) is taken as
    a parameter or a record field holding a function. *)

From Stdlib Require Import ZArith Ascii String.
From stdpp Require Import base option list strings gmap sorting.

Local Open Scope string_scope.
Local Open Scope Z_scope.

(** ** Python preliminaries *)

Module Py.

(** Exception classes raised or handled by the embedded code. *)
Inductive exn_class :=
| ValueError
| AttributeError
| KeyError
| IndexError
| TypeError
| UnboundLocalError
| MarvinError
| OtherError (name : string).

(** An exception message keeps the template of the source and its
    arguments apart, so that neither [str.format] nor [repr] has to be
    interpreted: [Format t args] stands for [t.format( *args)], [Repr s]
    for an argument rendered with [{!r}], [ReprType t] for the [repr] of
    a type object, and [Text s] for a plain string. *)
#[warnings="-register-all"]
Inductive message :=
| Text (s : string)
| Repr (s : string)
| ReprType (t : string)
| Format (template : string) (args : list message).

Record exn := Exn { exn_cls : exn_class; exn_msg : message }.

#[global] Instance exn_class_eq_dec : EqDecision exn_class.
Proof. solve_decision. Defined.

Inductive result (A : Type) :=
| Ok (a : A)
| Raise (e : exn).
Global Arguments Ok {A} a.
Global Arguments Raise {A} e.

#[global] Instance result_ret : MRet result := fun A a => Ok a.
#[global] Instance result_bind : MBind result := fun A B f m =>
  match m with
  | Ok a => f a
  | Raise e => Raise e
  end.
#[global] Instance result_fmap : FMap result := fun A B f m =>
  match m with
  | Ok a => Ok (f a)
  | Raise e => Raise e
  end.

Definition raises {A} (m : result A) (c : exn_class) : Prop :=
  match m with Ok _ => False | Raise e => exn_cls e = c end.

(** [try: m  except cls: handler]: only exceptions of class [cls] are
    handled, every other one propagates. *)
Definition try_except {A} (m : result A) (cls : exn_class)
    (handler : result A) : result A :=
  match m with
  | Ok a => Ok a
  | Raise e => if decide (exn_cls e = cls) then handler else Raise e
  end.

(** [d[k]] on a dict. *)
Definition dict_getitem {V} (d : gmap string V) (k : string) : result V :=
  match d !! k with
  | Some v => Ok v
  | None => Raise (Exn KeyError (Repr k))
  end.

(** [str.lower] and [str.upper] on byte strings. *)
Definition is_upper_ascii (c : ascii) : bool :=
  let n := nat_of_ascii c in (65 <=? n)%nat && (n <=? 90)%nat.
Definition is_lower_ascii (c : ascii) : bool :=
  let n := nat_of_ascii c in (97 <=? n)%nat && (n <=? 122)%nat.

Definition lower_ascii (c : ascii) : ascii :=
  if is_upper_ascii c then ascii_of_nat (nat_of_ascii c + 32) else c.
Definition upper_ascii (c : ascii) : ascii :=
  if is_lower_ascii c then ascii_of_nat (nat_of_ascii c - 32) else c.

Fixpoint lower (s : string) : string :=
  match s with
  | EmptyString => EmptyString
  | String c s' => String (lower_ascii c) (lower s')
  end.
Fixpoint upper (s : string) : string :=
  match s with
  | EmptyString => EmptyString
  | String c s' => String (upper_ascii c) (upper s')
  end.

(** No upper-case letter occurs in [s]. *)
Fixpoint islower (s : string) : bool :=
  match s with
  | EmptyString => true
  | String c s' => negb (is_upper_ascii c) && islower s'
  end.

(** [t] is [s] with some letters in the other case. *)
Fixpoint recased (s t : string) : Prop :=
  match s, t with
  | EmptyString, EmptyString => True
  | String a s', String b t' => lower_ascii a = lower_ascii b /\ recased s' t'
  | _, _ => False
  end.

(** The truth value of a string: empty strings are false. *)
Definition truthy (s : string) : bool :=
  match s with EmptyString => false | _ => true end.

(** [l.index(v)]: the first position of [v], for a [v] that occurs. *)
Definition index {A} `{EqDecision A} (v : A) (l : list A) : option nat :=
  fst <$> list_find (fun x => x = v) l.

(** A list comprehension [[f(x) for x in l]] whose body can raise. *)
Fixpoint for_each {A B} (f : A -> result B) (l : list A) : result (list B) :=
  match l with
  | [] => Ok []
  | x :: rest => y ← f x; ys ← for_each f rest; Ok (y :: ys)
  end.

End Py.
Export Py.

(** ** drp/base.py *)

Module Drp.

(** Object identities. *)
Definition loc := positive.

(** A [DataCube]: one extension of the DRP logcube file.  [parent] is the
    back-reference to the owning datamodel, [None] until a list sets it. *)
Module DataCube.
Record t := Make {
  name : string;
  extension_name : string;
  extension_wave : option string;
  extension_ivar : option string;
  extension_mask : option string;
  unit : string;
  scale : Z;
  formats : gmap string string;
  description : string;
  parent : option loc
}.

Definition set_parent_attr (p : option loc) (d : t) : t :=
  Make (name d) (extension_name d) (extension_wave d) (extension_ivar d)
       (extension_mask d) (unit d) (scale d) (formats d) (description d) p.

(** [full]: the lower-cased extension name. *)
Definition full (d : t) : string := lower (extension_name d).

(** [to_string]; the [latex] mode falls back on the [string] mode. *)
Definition to_string (d : t) (mode : string) : string :=
  if decide (mode = "latex") then
    match formats d !! mode with
    | Some latex => latex
    | None => default (name d) (formats d !! "string")
    end
  else default (name d) (formats d !! mode).
End DataCube.

(** A [Spectrum]. *)
Module Spectrum.
Record t := Make {
  name : string;
  extension_name : string;
  extension_wave : option string;
  extension_std : option string;
  unit : string;
  scale : Z;
  formats : gmap string string;
  description : string;
  parent : option loc
}.

Definition set_parent_attr (p : option loc) (s : t) : t :=
  Make (name s) (extension_name s) (extension_wave s) (extension_std s)
       (unit s) (scale s) (formats s) (description s) p.

Definition full (s : t) : string := lower (extension_name s).
End Spectrum.

(** *** The fuzzy list *)

(** Modelled from the spec: [FuzzyList] (marvin.utils.general.structs),
    the base class of [DataCubeList] and [SpectrumList], is missing from
    the sources.  Its [find] follows section 4.1: an exact
    case-insensitive match on the key, else a match through the alias
    table, else the candidates whose similarity to the query exceeds the
    threshold, of which there must be exactly one.  The similarity test
    [similar] belongs to an outside library and is a parameter. *)
Module FuzzyList.
Inductive found (A : Type) :=
| Found (a : A)
| NotFound
| Ambiguous.
Global Arguments Found {A} a.
Global Arguments NotFound {A}.
Global Arguments Ambiguous {A}.

Section find.
Context {A : Type} (similar : string -> string -> bool).
Context (mapper : A -> string) (aliases : list (string * string)).

Definition exact (items : list A) (query : string) : option A :=
  snd <$> list_find (fun x => lower (mapper x) = lower query) items.

Definition aliased (items : list A) (query : string) : option A :=
  '(_, key) ← snd <$> list_find (fun a => lower (fst a) = lower query) aliases;
  snd <$> list_find (fun x => mapper x = key) items.

Definition candidates (items : list A) (query : string) : list A :=
  filter (fun x => similar query (mapper x) = true) items.

(** Modelled from the spec: [FuzzyList.find] of section 4.1, the
    class being missing from the sources. *)
Definition find (items : list A) (query : string) : found A :=
  match exact items query with
  | Some x => Found x
  | None =>
    match aliased items query with
    | Some x => Found x
    | None =>
      match candidates items query with
      | [] => NotFound
      | [x] => Found x
      | _ :: _ :: _ => Ambiguous
      end
    end
  end.

(** Modelled from the spec: [FuzzyList.__getitem__] on a string.  Both
    failures of [find] reach the caller as a [ValueError], the one
    exception that [DRPDataModel.__eq__] handles. *)
Definition getitem (items : list A) (query : string) : result A :=
  match find items query with
  | Found x => Ok x
  | NotFound => Raise (Exn ValueError (Format "no match for {!r}" [Repr query]))
  | Ambiguous => Raise (Exn ValueError (Format "several matches for {!r}" [Repr query]))
  end.
End find.
End FuzzyList.

(** *** DRPDataModel *)

Record DRPDataModel := {
  release : string;
  aliases : list string;
  datacubes : list DataCube.t;
  spectra : list Spectrum.t
}.

(** What a lookup returns: an entry of one of the two kinds. *)
Inductive entry :=
| IsDataCube (d : DataCube.t)
| IsSpectrum (s : Spectrum.t).

Section lookup.
(** [self.datacubes[value]] and [self.spectra[value]] for a string
    [value]: the lookup of the fuzzy list, given the key function of
    the list ([lambda xx: xx.full()]) and its items. *)
Variable fuzzy : forall A : Type, (A -> string) -> list A -> string -> result A.

Definition too_ambiguous (value : string) : exn :=
  Exn ValueError (Format "too ambiguous input {!r}" [Repr value]).

(** [DRPDataModel.__eq__]. *)
Definition DRPDataModel_eq (self : DRPDataModel) (value : string) : result entry :=
  let datacube_names := DataCube.name <$> datacubes self in
  let spectrum_names := Spectrum.name <$> spectra self in
  if bool_decide (value ∈ datacube_names) then
    match i ← index value datacube_names; datacubes self !! i with
    | Some d => Ok (IsDataCube d)
    | None => Raise (Exn IndexError (Text "list index out of range"))
    end
  else if bool_decide (value ∈ spectrum_names) then
    match i ← index value spectrum_names; spectra self !! i with
    | Some s => Ok (IsSpectrum s)
    | None => Raise (Exn IndexError (Text "list index out of range"))
    end
  else
    datacube_best_match ←
      try_except (Some <$> fuzzy _ DataCube.full (datacubes self) value)
                 ValueError (Ok None);
    spectrum_best_match ←
      try_except (Some <$> fuzzy _ Spectrum.full (spectra self) value)
                 ValueError (Ok None);
    match datacube_best_match, spectrum_best_match with
    | None, None => Raise (too_ambiguous value)
    | Some _, Some _ => Raise (too_ambiguous value)
    | Some d, None => Ok (IsDataCube d)
    | None, Some s => Ok (IsSpectrum s)
    end.

(** [DRPDataModel.__getitem__]. *)
Definition DRPDataModel_getitem (self : DRPDataModel) (value : string) : result entry :=
  DRPDataModel_eq self value.

(** [DRPDataModel.__contains__]. *)
Definition DRPDataModel_contains (self : DRPDataModel) (value : string) : result bool :=
  try_except (_ ← DRPDataModel_eq self value; Ok true) ValueError (Ok false).
End lookup.

(** *** Appending to the lists *)

(** The values a caller can hand to [append]: [None], numbers and strings,
    which carry no instance attributes, and references to the objects of
    the heap, which do. *)
Inductive pyval :=
| VNone
| VInt (z : Z)
| VStr (s : string)
| VRef (l : loc).

(** The objects in the heap.  The attributes of an instance are held by
    value in its cell: two cells share nothing but the objects their
    [parent] fields refer to.  [InstClass] is a class defined in Python
    or a function, with the name of its own type ([type], [function]):
    an object that takes attributes like an instance, and that
    [copy.deepcopy] returns as it is. *)
Inductive instance :=
| InstDataCube (d : DataCube.t)
| InstSpectrum (s : Spectrum.t)
| InstOther (class_name : string) (parent : option loc)
| InstClass (type_of : string) (parent : option loc).

Abbreviation heap := (gmap loc instance).

Definition type_name (h : heap) (v : pyval) : string :=
  match v with
  | VNone => "NoneType"
  | VInt _ => "int"
  | VStr _ => "str"
  | VRef l =>
    match h !! l with
    | Some (InstDataCube _) => "DataCube"
    | Some (InstSpectrum _) => "Spectrum"
    | Some (InstOther c _) => c
    | Some (InstClass t _) => t
    | None => "object"
    end
  end.

(** [copy.deepcopy]: atoms, classes and functions are returned as they
    are, an instance is rebuilt in a cell of its own.  The copy of an
    instance refers to a copy of its parent; [append], the one caller,
    overwrites that reference at once, and the cells that nothing refers
    to any more are left out of the heap. *)
Definition deepcopy (v : pyval) (h : heap) : pyval * heap :=
  match v with
  | VRef l =>
    match h !! l with
    | Some (InstClass _ _) => (v, h)
    | Some o => let l' := fresh (dom h) in (VRef l', <[l' := o]> h)
    | None => (v, h)
    end
  | _ => (v, h)
  end.

Definition set_parent (p : option loc) (o : instance) : instance :=
  match o with
  | InstDataCube d => InstDataCube (DataCube.set_parent_attr p d)
  | InstSpectrum s => InstSpectrum (Spectrum.set_parent_attr p s)
  | InstOther c _ => InstOther c p
  | InstClass c _ => InstClass c p
  end.

Definition no_attribute (h : heap) (v : pyval) : exn :=
  Exn AttributeError
      (Format "{!r} object has no attribute {!r}" [Repr (type_name h v); Repr "parent"]).

(** [obj.parent = p]. *)
Definition setattr_parent (v : pyval) (p : option loc) (h : heap) : result heap :=
  match v with
  | VRef l =>
    match h !! l with
    | Some o => Ok (<[l := set_parent p o]> h)
    | None => Raise (no_attribute h v)
    end
  | _ => Raise (no_attribute h v)
  end.

Definition isinstance_DataCube (h : heap) (v : pyval) : option loc :=
  match v with
  | VRef l => match h !! l with Some (InstDataCube _) => Some l | _ => None end
  | _ => None
  end.

Definition isinstance_Spectrum (h : heap) (v : pyval) : option loc :=
  match v with
  | VRef l => match h !! l with Some (InstSpectrum _) => Some l | _ => None end
  | _ => None
  end.

(** A [DataCubeList] or [SpectrumList]: the parent datamodel and the
    references held, in order. *)
Record FuzzyListObj := {
  list_parent : option loc;
  list_items : list loc
}.

(** The state a call leaves behind, and the exception it ended with if
    any. *)
Record outcome := {
  raised : option exn;
  heap_after : heap;
  list_after : FuzzyListObj
}.

Definition push (self : FuzzyListObj) (l : loc) : FuzzyListObj :=
  {| list_parent := list_parent self; list_items := list_items self ++ [l] |}.

(** [DataCubeList.append]. *)
Definition DataCubeList_append (self : FuzzyListObj) (value : pyval) (copy : bool)
    (h : heap) : outcome :=
  let '(append_obj, h1) := if copy then deepcopy value h else (value, h) in
  match setattr_parent append_obj (list_parent self) h1 with
  | Raise e => {| raised := Some e; heap_after := h1; list_after := self |}
  | Ok h2 =>
    match isinstance_DataCube h2 append_obj with
    | Some l => {| raised := None; heap_after := h2; list_after := push self l |}
    | None =>
      {| raised := Some (Exn ValueError
                   (Format "invalid datacube of type {!r}" [ReprType (type_name h2 append_obj)]));
         heap_after := h2; list_after := self |}
    end
  end.

(** [SpectrumList.append]. *)
Definition SpectrumList_append (self : FuzzyListObj) (value : pyval) (copy : bool)
    (h : heap) : outcome :=
  let '(append_obj, h1) := if copy then deepcopy value h else (value, h) in
  match setattr_parent append_obj (list_parent self) h1 with
  | Raise e => {| raised := Some e; heap_after := h1; list_after := self |}
  | Ok h2 =>
    match isinstance_Spectrum h2 append_obj with
    | Some l => {| raised := None; heap_after := h2; list_after := push self l |}
    | None =>
      {| raised := Some (Exn ValueError
                   (Format "invalid spectrum of type {!r}" [ReprType (type_name h2 append_obj)]));
         heap_after := h2; list_after := self |}
    end
  end.

(** The loop of [DataCubeList.__init__]: [self.append(item, copy=True)]
    for each item, up to the first exception. *)
Fixpoint DataCubeList_extend (self : FuzzyListObj) (the_list : list pyval) (h : heap) : outcome :=
  match the_list with
  | [] => {| raised := None; heap_after := h; list_after := self |}
  | item :: rest =>
    let o := DataCubeList_append self item true h in
    match raised o with
    | Some _ => o
    | None => DataCubeList_extend (list_after o) rest (heap_after o)
    end
  end.

Definition DataCubeList_init (the_list : list pyval) (parent : option loc) (h : heap) : outcome :=
  DataCubeList_extend {| list_parent := parent; list_items := [] |} the_list h.

(** Every reference of the list leads to a [DataCube]. *)
Definition all_datacubes (h : heap) (self : FuzzyListObj) : Prop :=
  Forall (fun l => exists d, h !! l = Some (InstDataCube d)) (list_items self).

End Drp.

(** ** tools/map.py *)

Module MapTool.

(** *** Arrays *)

(** A numpy array, by its nesting: a scalar, or the sequence of its
    sub-arrays along the first axis.  The loaders move the elements and
    never compute on them; their type [scalar] is left open. *)
#[warnings="-register-all"]
Inductive ndarray (scalar : Type) :=
| Scalar (x : scalar)
| Array (items : list (ndarray scalar)).
Global Arguments Scalar {scalar} x.
Global Arguments Array {scalar} items.

Definition array1 {scalar} (l : list scalar) : ndarray scalar :=
  Array (Scalar <$> l).
Definition array2 {scalar} (grid : list (list scalar)) : ndarray scalar :=
  Array (array1 <$> grid).

(** [a[i]] for an index [i] that is not negative. *)
Definition getitem {scalar} (a : ndarray scalar) (i : nat) : result (ndarray scalar) :=
  match a with
  | Array items =>
    match items !! i with
    | Some x => Ok x
    | None => Raise (Exn IndexError (Text "index out of bounds"))
    end
  | Scalar _ => Raise (Exn IndexError (Text "invalid index to scalar variable."))
  end.

(** [numpy.array(a)] of what is an array already. *)
Definition numpy_array {scalar} (a : ndarray scalar) : ndarray scalar := a.

Fixpoint chunks {A} (rows cols : nat) (l : list A) : list (list A) :=
  match rows with
  | O => []
  | S r => take cols l :: chunks r cols (drop cols l)
  end.

(** [a.reshape(shape)] of a flat array to two dimensions, in raster (C)
    order; the sizes must agree. *)
Definition reshape {scalar} (l : list scalar) (shape : nat * nat) : result (ndarray scalar) :=
  if decide (length l = (shape.1 * shape.2)%nat)
  then Ok (array2 (chunks shape.1 shape.2 l))
  else Raise (Exn ValueError (Text "total size of new array must be unchanged")).

(** [numpy.argsort(keys)]: the positions of [keys], ordered by ascending
    key.  Positions of equal keys come in the order the merge leaves
    them in; numpy does not promise an order for them either. *)
Definition key_le (a b : Z * nat) : Prop := a.1 ≤ b.1.
#[global] Instance key_le_dec : RelDecision key_le := fun a b => decide (a.1 ≤ b.1).

Definition argsort (keys : list Z) : list nat :=
  snd <$> merge_sort key_le (zip keys (seq 0 (length keys))).

(** [a[order]] for an array of positions [order]. *)
Definition fancy_index {A} (l : list A) (order : list nat) : result (list A) :=
  for_each (fun i => match l !! i with
                     | Some x => Ok x
                     | None => Raise (Exn IndexError (Text "index out of bounds"))
                     end) order.

(** *** The objects around a Map *)

(** [astropy.io.fits.Header]. *)
Record Header := FitsHeader { cards : gmap string string }.

(** [distutils.version.StrictVersion]: the numbers of the version and the
    pre-release tag, if any. *)
Record strict_version := {
  version : nat * nat * nat;
  prerelease : option (ascii * nat)
}.

Definition version_lt (a b : nat * nat * nat) : bool :=
  let '(a1, a2, a3) := a in
  let '(b1, b2, b3) := b in
  (a1 <? b1)%nat || ((a1 =? b1)%nat && ((a2 <? b2)%nat || ((a2 =? b2)%nat && (a3 <? b3)%nat))).

Definition prerelease_le (x y : ascii * nat) : bool :=
  (nat_of_ascii x.1 <? nat_of_ascii y.1)%nat
  || ((nat_of_ascii x.1 =? nat_of_ascii y.1)%nat && (x.2 <=? y.2)%nat).

(** [a <= b], after [StrictVersion._cmp]. *)
Definition strict_version_le (a b : strict_version) : bool :=
  if bool_decide (version a = version b) then
    match prerelease a, prerelease b with
    | None, None => true
    | Some _, None => true
    | None, Some _ => false
    | Some x, Some y => prerelease_le x y
    end
  else version_lt (version a) (version b).

(** [StrictVersion('1.1.1')]. *)
Definition version_1_1_1 : strict_version :=
  {| version := (1, 1, 1)%nat; prerelease := None |}.

(** A property of the DAP datamodel (marvin.utils.dap.datamodel), with
    the attributes and the one method that map.py uses. *)
Module MapsProperty.
Inductive unit_spec :=
| UnitOne (u : option string)
| UnitList (us : list string).

Record t := Make {
  name : string;
  channels : option (list string);
  ivar : bool;
  mask : bool;
  unit : unit_spec;
  fullname : option string -> option string -> string
}.
End MapsProperty.

(** An image extension of the opened maps file. *)
Module ImageHDU.
Record t (scalar : Type) := Make {
  header : Header;
  data : ndarray scalar
}.
Global Arguments Make {scalar} header data.
Global Arguments header {scalar} t.
Global Arguments data {scalar} t.
End ImageHDU.

(** A row of the spaxel-property table: its index, and the columns that
    [getattr] reads. *)
Module SpaxelProp.
Record t (scalar : Type) := Make {
  spaxel_index : Z;
  columns : gmap string scalar
}.
Global Arguments Make {scalar} spaxel_index columns.
Global Arguments spaxel_index {scalar} t.
Global Arguments columns {scalar} t.

Definition getattr {scalar} (spaxel : t scalar) (attr : string) : result scalar :=
  match columns spaxel !! attr with
  | Some x => Ok x
  | None =>
    Raise (Exn AttributeError
               (Format "{!r} object has no attribute {!r}" [Repr "SpaxelProp"; Repr attr]))
  end.
End SpaxelProp.

(** A row of the header table: [hdu.extname.name] and
    [hdu.header_to_dict()]. *)
Module HDURow.
Record t := Make {
  extname_name : string;
  header_to_dict : gmap string string
}.
End HDURow.

(** The parent [Maps] object (marvin.tools.maps), with the attributes that
    map.py reads.  [properties] is the [__getitem__] of its property
    list, which answers [None] for a name it does not hold. *)
Module Maps.
Inductive maps_data (scalar : Type) :=
| HDUList (hdu_by_name : string -> option (ImageHDU.t scalar))
| DBFile (spaxelprops spaxelprops5 : list (SpaxelProp.t scalar)) (hdus : list HDURow.t)
| NoData.
Global Arguments HDUList {scalar} hdu_by_name.
Global Arguments DBFile {scalar} spaxelprops spaxelprops5 hdus.
Global Arguments NoData {scalar}.

Record t (scalar : Type) := Make {
  shape : nat * nat;
  properties : string -> option MapsProperty.t;
  data_origin : string;
  data : maps_data scalar;
  plateifu : string;
  _drpver : string;
  _dapver : string
}.
Global Arguments Make {scalar} shape properties data_origin data plateifu _drpver _dapver.
Global Arguments shape {scalar} t.
Global Arguments properties {scalar} t.
Global Arguments data_origin {scalar} t.
Global Arguments data {scalar} t.
Global Arguments plateifu {scalar} t.
Global Arguments _drpver {scalar} t.
Global Arguments _dapver {scalar} t.
End Maps.

(** Modelled from the spec: the answer of the remote [getmap] route,
    whose server code is missing from the sources.  Section 6 gives the
    fields of the payload: three arrays, a unit string and a header
    mapping. *)
Record payload (scalar : Type) := {
  payload_value : ndarray scalar;
  payload_ivar : ndarray scalar;
  payload_mask : ndarray scalar;
  payload_unit : string;
  payload_header : gmap string string
}.
Global Arguments payload_value {scalar} p.
Global Arguments payload_ivar {scalar} p.
Global Arguments payload_mask {scalar} p.
Global Arguments payload_unit {scalar} p.
Global Arguments payload_header {scalar} p.

(** The response object of marvin.api.api.Interaction: [getData()] and
    the [results] dict. *)
Record Response (scalar : Type) := {
  getData : option (payload scalar);
  results : gmap string string
}.
Global Arguments getData {scalar} r.
Global Arguments results {scalar} r.

Inductive warning :=
| MarvinUserWarning (msg : message).

(** The [Map] object. *)
Module Map.
Record t (scalar : Type) := Make {
  maps : Maps.t scalar;
  property_name : string;
  channel : option string;
  shape : nat * nat;
  maps_property : MapsProperty.t;
  value : option (ndarray scalar);
  ivar : option (ndarray scalar);
  mask : option (ndarray scalar);
  header : option Header;
  unit : option string
}.
Global Arguments Make {scalar} maps property_name channel shape maps_property
       value ivar mask header unit.
Global Arguments maps {scalar} t.
Global Arguments property_name {scalar} t.
Global Arguments channel {scalar} t.
Global Arguments shape {scalar} t.
Global Arguments maps_property {scalar} t.
Global Arguments value {scalar} t.
Global Arguments ivar {scalar} t.
Global Arguments mask {scalar} t.
Global Arguments header {scalar} t.
Global Arguments unit {scalar} t.

(** [self] as [__init__] has it before it calls a loader. *)
Definition unloaded {scalar} (maps : Maps.t scalar) (property_name : string)
    (channel : option string) (maps_property : MapsProperty.t) : t scalar :=
  Make maps property_name channel (Maps.shape maps) maps_property
       None None None None None.

(** The assignments a loader makes to [self]. *)
Definition loaded {scalar} (self : t scalar) (value ivar mask : option (ndarray scalar))
    (header : option Header) (unit : option string) : t scalar :=
  Make (maps self) (property_name self) (channel self) (shape self)
       (maps_property self) value ivar mask header unit.
End Map.

(** *** The loaders and the constructor *)

Section loaders.
Context {scalar : Type}.

(** [distutils.version.StrictVersion(s)] for a string [s] that is not
    empty, [None] when [s] is no strict version number. *)
Variable StrictVersion : string -> option strict_version.

(** [marvin.api.api.Interaction(url, params=...)]: the request to the
    remote server, which answers or raises. *)
Variable Interaction : message -> list (string * string) -> result (Response scalar).

(** [marvin.config.urlmap['api']['getmap']['url']]. *)
Variable getmap_url : string.

Definition invalid_combination : exn :=
  Exn MarvinError (Text "invalid combination of property name and channel.").

(** [self.maps.data[ext]] on the opened file. *)
Definition hdulist_getitem (d : Maps.maps_data scalar) (ext : string)
    : result (ImageHDU.t scalar) :=
  match d with
  | Maps.HDUList hdu_by_name =>
    match hdu_by_name ext with
    | Some hdu => Ok hdu
    | None => Raise (Exn KeyError (Format "Extension {!r} not found." [Repr ext]))
    end
  | Maps.DBFile _ _ _ => Raise (Exn TypeError (Text "object does not support indexing"))
  | Maps.NoData => Raise (Exn TypeError (Text "'NoneType' object is not subscriptable"))
  end.

(** [self.maps_property.channels.index(channel)]. *)
Definition channels_index (p : MapsProperty.t) (channel : string) : result nat :=
  match MapsProperty.channels p with
  | None =>
    Raise (Exn AttributeError
               (Format "{!r} object has no attribute {!r}" [Repr "NoneType"; Repr "index"]))
  | Some channels =>
    match index channel channels with
    | Some i => Ok i
    | None => Raise (Exn ValueError (Format "{!r} is not in list" [Repr channel]))
    end
  end.

(** The unit of a loaded file map; [channel_idx] is bound only when a
    channel was given. *)
Definition file_unit (p : MapsProperty.t) (channel_idx : option nat) : result (option string) :=
  match MapsProperty.unit p with
  | MapsProperty.UnitList us =>
    match channel_idx with
    | None =>
      Raise (Exn UnboundLocalError
                 (Text "local variable 'channel_idx' referenced before assignment"))
    | Some i =>
      match us !! i with
      | Some u => Ok (Some u)
      | None => Raise (Exn IndexError (Text "list index out of range"))
      end
    end
  | MapsProperty.UnitOne u => Ok u
  end.

(** [Map._load_map_from_file]. *)
Definition _load_map_from_file (self : Map.t scalar) : result (Map.t scalar) :=
  let data := Maps.data (Map.maps self) in
  let property_name := Map.property_name self in
  let maps_property := Map.maps_property self in
  header ← ImageHDU.header <$> hdulist_getitem data property_name;
  match Map.channel self with
  | Some channel =>
    channel_idx ← channels_index maps_property channel;
    value ← (hdu ← hdulist_getitem data property_name;
             getitem (ImageHDU.data hdu) channel_idx);
    ivar ← (if MapsProperty.ivar maps_property
            then hdu ← hdulist_getitem data (property_name +:+ "_ivar");
                 Some <$> getitem (ImageHDU.data hdu) channel_idx
            else Ok (Map.ivar self));
    mask ← (if MapsProperty.mask maps_property
            then hdu ← hdulist_getitem data (property_name +:+ "_mask");
                 Some <$> getitem (ImageHDU.data hdu) channel_idx
            else Ok (Map.mask self));
    unit ← file_unit maps_property (Some channel_idx);
    Ok (Map.loaded self (Some value) ivar mask (Some header) unit)
  | None =>
    value ← ImageHDU.data <$> hdulist_getitem data property_name;
    ivar ← (if MapsProperty.ivar maps_property
            then Some ∘ ImageHDU.data <$> hdulist_getitem data (property_name +:+ "_ivar")
            else Ok (Map.ivar self));
    mask ← (if MapsProperty.mask maps_property
            then Some ∘ ImageHDU.data <$> hdulist_getitem data (property_name +:+ "_mask")
            else Ok (Map.mask self));
    unit ← file_unit maps_property None;
    Ok (Map.loaded self (Some value) ivar mask (Some header) unit)
  end.

(** [self.maps.data.spaxelprops], [.spaxelprops5] and [.hdus] on the
    database row. *)
Definition no_db_attribute (attr : string) : exn :=
  Exn AttributeError (Format "object has no attribute {!r}" [Repr attr]).

Definition db_spaxelprops (d : Maps.maps_data scalar) : result (list (SpaxelProp.t scalar)) :=
  match d with
  | Maps.DBFile spaxelprops _ _ => Ok spaxelprops
  | _ => Raise (no_db_attribute "spaxelprops")
  end.

Definition db_spaxelprops5 (d : Maps.maps_data scalar) : result (list (SpaxelProp.t scalar)) :=
  match d with
  | Maps.DBFile _ spaxelprops5 _ => Ok spaxelprops5
  | _ => Raise (no_db_attribute "spaxelprops5")
  end.

Definition db_hdus (d : Maps.maps_data scalar) : result (list HDURow.t) :=
  match d with
  | Maps.DBFile _ _ hdus => Ok hdus
  | _ => Raise (no_db_attribute "hdus")
  end.

(** [numpy.array([getattr(spaxel, column) for spaxel in spaxels])
    [spaxel_order].reshape(self.shape)]. *)
Definition db_array (spaxels : list (SpaxelProp.t scalar)) (spaxel_order : list nat)
    (column : string) (shape : nat * nat) : result (ndarray scalar) :=
  values ← for_each (fun spaxel => SpaxelProp.getattr spaxel column) spaxels;
  ordered ← fancy_index values spaxel_order;
  reshape ordered shape.

(** The loop over the header rows: the dict of the first row whose
    extension name is the name of the property, whatever the case. *)
Definition find_header_dict (p : MapsProperty.t) (hdus : list HDURow.t)
    : option (gmap string string) :=
  (fun found => HDURow.header_to_dict found.2)
    <$> list_find (fun hdu => upper (MapsProperty.name p) = upper (HDURow.extname_name hdu)) hdus.

(** [not header_dict]: [None] and the empty dict are both false. *)
Definition not_dict (header_dict : option (gmap string string)) : bool :=
  match header_dict with
  | None => true
  | Some d => bool_decide (d = ∅)
  end.

Definition header_warning (p : MapsProperty.t) : warning :=
  MarvinUserWarning
    (Format "cannot find the header for property {0}." [Text (MapsProperty.name p)]).

(** The rows of the spaxel table, which depends on the DAP version.
    [StrictVersion('')] parses nothing and is built without its numbers:
    the comparison then ends in an AttributeError. *)
Definition db_spaxels (self : Map.t scalar) : result (list (SpaxelProp.t scalar)) :=
  let data := Maps.data (Map.maps self) in
  dapver ← (if decide (Maps._dapver (Map.maps self) = "") then
              Raise (Exn AttributeError
                         (Format "{!r} object has no attribute {!r}"
                                 [Repr "StrictVersion"; Repr "version"]))
            else
              match StrictVersion (Maps._dapver (Map.maps self)) with
              | Some v => Ok v
              | None => Raise (Exn ValueError
                                   (Format "invalid version number {!r}"
                                           [Repr (Maps._dapver (Map.maps self))]))
              end);
  if strict_version_le dapver version_1_1_1
  then db_spaxelprops data else db_spaxelprops5 data.

(** The three arrays read from the rows [spaxels]. *)
Definition db_arrays_of (self : Map.t scalar) (spaxels : list (SpaxelProp.t scalar))
    : result (ndarray scalar * option (ndarray scalar) * option (ndarray scalar)) :=
  let maps_property := Map.maps_property self in
  let spaxel_index := SpaxelProp.spaxel_index <$> spaxels in
  let spaxel_order := argsort spaxel_index in
  let fullname_value := MapsProperty.fullname maps_property (Map.channel self) None in
  value ← db_array spaxels spaxel_order fullname_value (Map.shape self);
  ivar ← (if MapsProperty.ivar maps_property
          then Some <$> db_array spaxels spaxel_order
                 (MapsProperty.fullname maps_property (Map.channel self) (Some "ivar"))
                 (Map.shape self)
          else Ok (Map.ivar self));
  mask ← (if MapsProperty.mask maps_property
          then Some <$> db_array spaxels spaxel_order
                 (MapsProperty.fullname maps_property (Map.channel self) (Some "mask"))
                 (Map.shape self)
          else Ok (Map.mask self));
  Ok (value, ivar, mask).

(** The arrays as the specification words them: the column of the
    rows taken in the order [rows], reshaped.  To be compared with
    [db_array] and [db_arrays_of], which follow the code. *)
Definition raster_array (rows : list (SpaxelProp.t scalar)) (column : string)
    (shape : nat * nat) : result (ndarray scalar) :=
  values ← for_each (fun spaxel => SpaxelProp.getattr spaxel column) rows;
  reshape values shape.

Definition arrays_in_raster_order (self : Map.t scalar)
    (rows : list (SpaxelProp.t scalar))
    : result (ndarray scalar * option (ndarray scalar) * option (ndarray scalar)) :=
  let maps_property := Map.maps_property self in
  value ← raster_array rows (MapsProperty.fullname maps_property (Map.channel self) None)
                       (Map.shape self);
  ivar ← (if MapsProperty.ivar maps_property
          then Some <$> raster_array rows
                 (MapsProperty.fullname maps_property (Map.channel self) (Some "ivar"))
                 (Map.shape self)
          else Ok (Map.ivar self));
  mask ← (if MapsProperty.mask maps_property
          then Some <$> raster_array rows
                 (MapsProperty.fullname maps_property (Map.channel self) (Some "mask"))
                 (Map.shape self)
          else Ok (Map.mask self));
  Ok (value, ivar, mask).

(** Rows in ascending order of [spaxel_index]. *)
Definition by_spaxel_index (a b : SpaxelProp.t scalar) : Prop :=
  SpaxelProp.spaxel_index a ≤ SpaxelProp.spaxel_index b.

(** The rows picked by [spaxel_order], as numpy picks the elements. *)
Definition rows_in_order (spaxels : list (SpaxelProp.t scalar))
    : list (SpaxelProp.t scalar) :=
  (fun i => default (SpaxelProp.Make 0 ∅) (spaxels !! i))
    <$> argsort (SpaxelProp.spaxel_index <$> spaxels).

(** [a] is the array of two dimensions and of shape [shape] that holds,
    read line after line, the column [column] of the rows [rows] in
    their order. *)
Definition column_grid (rows : list (SpaxelProp.t scalar)) (column : string)
    (shape : nat * nat) (a : option (ndarray scalar)) : Prop :=
  exists grid : list (list scalar),
    a = Some (array2 grid)
    /\ length grid = shape.1
    /\ Forall (fun line => length line = shape.2) grid
    /\ Forall2 (fun spaxel x => SpaxelProp.columns spaxel !! column = Some x)
               rows (concat grid).

(** The first half of [Map._load_map_from_db]: the three arrays. *)
Definition db_arrays (self : Map.t scalar)
    : result (ndarray scalar * option (ndarray scalar) * option (ndarray scalar)) :=
  spaxels ← db_spaxels self;
  db_arrays_of self spaxels.

(** [Map._load_map_from_db]: the arrays, then the header. *)
Definition _load_map_from_db (self : Map.t scalar) : result (Map.t scalar * list warning) :=
  '(value, ivar, mask) ← db_arrays self;
  hdus ← db_hdus (Maps.data (Map.maps self));
  let header_dict := find_header_dict (Map.maps_property self) hdus in
  if not_dict header_dict
  then Ok (Map.loaded self (Some value) ivar mask (Map.header self) (Map.unit self),
           [header_warning (Map.maps_property self)])
  else Ok (Map.loaded self (Some value) ivar mask
                      (FitsHeader <$> header_dict) (Map.unit self),
           []).

Definition str_of_channel (channel : option string) : string :=
  match channel with
  | Some c => c
  | None => "None"
  end.

(** The address of the request and its parameters. *)
Definition url_full (self : Map.t scalar) : message :=
  Format getmap_url
         [Text (Maps.plateifu (Map.maps self));
          Format "property_name={0}/channel={1}"
                 [Text (Map.property_name self); Text (str_of_channel (Map.channel self))]].

Definition params (self : Map.t scalar) : list (string * string) :=
  [("drpver", Maps._drpver (Map.maps self)); ("dapver", Maps._dapver (Map.maps self))].

(** [Map._load_map_from_api]. *)
Definition _load_map_from_api (self : Map.t scalar) : result (Map.t scalar) :=
  match Interaction (url_full self) (params self) with
  | Raise ee =>
    Raise (Exn MarvinError
               (Format "found a problem when getting the map: {0}" [exn_msg ee]))
  | Ok response =>
    match getData response with
    | None =>
      error ← dict_getitem (results response) "error";
      Raise (Exn MarvinError (Format "something went wrong. Error is: {0}" [Text error]))
    | Some data =>
      Ok (Map.loaded self
            (Some (numpy_array (payload_value data)))
            (Some (numpy_array (payload_ivar data)))
            (Some (numpy_array (payload_mask data)))
            (Some (FitsHeader (payload_header data)))
            (Some (payload_unit data)))
    end
  end.

(** [channel.lower() if channel else None]. *)
Definition lower_channel (channel : option string) : option string :=
  match channel with
  | Some c => if truthy c then Some (lower c) else None
  | None => None
  end.

(** [self.channel not in self.maps_property.channels]. *)
Definition channel_not_in (channel : option string) (channels : list string) : bool :=
  match channel with
  | Some c => negb (bool_decide (c ∈ channels))
  | None => true
  end.

(** [Map.__init__]. *)
Definition Map_init (maps : Maps.t scalar) (property_name : string)
    (channel : option string) : result (Map.t scalar * list warning) :=
  let property_name := lower property_name in
  let channel := lower_channel channel in
  match Maps.properties maps property_name with
  | None => Raise invalid_combination
  | Some maps_property =>
    if match MapsProperty.channels maps_property with
       | Some channels => channel_not_in channel channels
       | None => false
       end
    then Raise invalid_combination
    else
      let self := Map.unloaded maps property_name channel maps_property in
      if decide (Maps.data_origin maps = "file") then
        self ← _load_map_from_file self; Ok (self, [])
      else if decide (Maps.data_origin maps = "db") then
        _load_map_from_db self
      else if decide (Maps.data_origin maps = "api") then
        self ← _load_map_from_api self; Ok (self, [])
      else Ok (self, [])
  end.
End loaders.

End MapTool.

(** ** Sample registries and stores *)

Module Samples.
Import Drp.

Definition datacube (name extension_name : string) : DataCube.t :=
  DataCube.Make name extension_name None None None "" 1 ∅ "" None.

Definition spectrum (name extension_name : string) : Spectrum.t :=
  Spectrum.Make name extension_name None None "" 1 ∅ "" None.

(** A similarity test to run the fuzzy list with: the query has three
    characters at least and starts the key. *)
Definition similar (query key : string) : bool :=
  (3 <=? String.length query)%nat && String.prefix (lower query) key.

Definition fuzzy (A : Type) (mapper : A -> string) (items : list A) (query : string)
    : result A :=
  FuzzyList.getitem similar mapper [] items query.

(** A datacube and a spectrum that bear the same name. *)
Definition same_name : DRPDataModel :=
  {| release := "MPL-6"; aliases := [];
     datacubes := [datacube "flux" "FLUX"];
     spectra := [spectrum "flux" "FLUX"] |}.

(** A datacube and a spectrum with names of their own and the same
    extension name. *)
Definition same_extension : DRPDataModel :=
  {| release := "MPL-6"; aliases := [];
     datacubes := [datacube "cube_flux" "FLUX"];
     spectra := [spectrum "spec_flux" "FLUX"] |}.

Definition no_entry : DRPDataModel :=
  {| release := "MPL-6"; aliases := []; datacubes := []; spectra := [] |}.

Definition two_entries : DRPDataModel :=
  {| release := "MPL-6"; aliases := [];
     datacubes := [datacube "flux" "FLUX"; datacube "dispersion" "DISP"];
     spectra := [spectrum "spectral_resolution" "SPECRES"] |}.

(** A heap with a datacube, a spectrum and an instance of a third class. *)
Definition sample_heap : gmap loc instance :=
  {[ 1%positive := InstDataCube (datacube "flux" "FLUX");
     2%positive := InstSpectrum (spectrum "spectral_resolution" "SPECRES");
     3%positive := InstOther "Bintype" None ]}.

Definition empty_list : FuzzyListObj :=
  {| list_parent := Some 9%positive; list_items := [] |}.

Import MapTool.

(** The column or extension name of a property: the name, the extension
    and the channel, joined by underscores. *)
Definition fullname (name : string) (channel ext : option string) : string :=
  name +:+ match ext with Some e => "_" +:+ e | None => "" end
       +:+ match channel with Some c => "_" +:+ c | None => "" end.

Definition emline_gflux : MapsProperty.t :=
  MapsProperty.Make "emline_gflux" (Some ["ha_6564"; "hb_4862"]) false false
                    (MapsProperty.UnitOne (Some "1E-17 erg/s/cm^2/spaxel"))
                    (fullname "emline_gflux").

Definition stellar_vel : MapsProperty.t :=
  MapsProperty.Make "stellar_vel" None true true
                    (MapsProperty.UnitOne (Some "km/s"))
                    (fullname "stellar_vel").

Definition properties (name : string) : option MapsProperty.t :=
  if decide (name = "emline_gflux") then Some emline_gflux
  else if decide (name = "stellar_vel") then Some stellar_vel
  else None.

Definition parse_version (s : string) : option strict_version :=
  if decide (s = "2.0.2") then Some {| version := (2, 0, 2)%nat; prerelease := None |}
  else if decide (s = "1.1.1") then Some {| version := (1, 1, 1)%nat; prerelease := None |}
  else None.

Definition url : string := "/marvin/api/maps/{name}/map/{path}/".

(** Two channels on a grid of two rows and two columns. *)
Definition ha_plane : list (list Z) := [[1; 2]; [3; 4]].
Definition hb_plane : list (list Z) := [[5; 6]; [7; 8]].

Definition maps_file : ImageHDU.t Z :=
  ImageHDU.Make (FitsHeader {[ "EXTNAME" := "EMLINE_GFLUX" ]})
                (Array [array2 ha_plane; array2 hb_plane]).

Definition from_file : Maps.t Z :=
  Maps.Make (2, 2)%nat properties "file"
            (Maps.HDUList (fun ext => if decide (ext = "emline_gflux")
                                      then Some maps_file else None))
            "8485-1901" "v2_3_1" "2.0.2".

Definition row (i ha hb vel ivar mask : Z) : SpaxelProp.t Z :=
  SpaxelProp.Make i {[ "emline_gflux_ha_6564" := ha; "emline_gflux_hb_4862" := hb;
                       "stellar_vel" := vel; "stellar_vel_ivar" := ivar;
                       "stellar_vel_mask" := mask ]}.

(** The rows of the same grid, as the database may return them, and in
    raster order. *)
Definition rows_shuffled : list (SpaxelProp.t Z) :=
  [row 2 3 7 30 300 1; row 0 1 5 10 100 0; row 3 4 8 40 400 1; row 1 2 6 20 200 0].

Definition rows_raster : list (SpaxelProp.t Z) :=
  [row 0 1 5 10 100 0; row 1 2 6 20 200 0; row 2 3 7 30 300 1; row 3 4 8 40 400 1].

Definition header_rows : list HDURow.t :=
  [HDURow.Make "PRIMARY" {[ "NAXIS" := "0" ]};
   HDURow.Make "STELLAR_VEL" {[ "BUNIT" := "km/s" ]}].

Definition from_db (rows : list (SpaxelProp.t Z)) : Maps.t Z :=
  Maps.Make (2, 2)%nat properties "db" (Maps.DBFile [] rows header_rows)
            "8485-1901" "v2_3_1" "2.0.2".

Definition from_api : Maps.t Z :=
  Maps.Make (2, 2)%nat properties "api" Maps.NoData "8485-1901" "v2_3_1" "2.0.2".

(** Three servers: one that answers with the [hb] plane, one that
    answers with an error, and one that cannot be reached. *)
Definition hb_payload : payload Z :=
  {| payload_value := array2 hb_plane;
     payload_ivar := array2 [[1; 1]; [1; 1]];
     payload_mask := array2 [[0; 0]; [0; 0]];
     payload_unit := "1E-17 erg/s/cm^2/spaxel";
     payload_header := {[ "EXTNAME" := "EMLINE_GFLUX" ]} |}.

Definition server_ok (_ : message) (_ : list (string * string)) : result (Response Z) :=
  Ok {| getData := Some hb_payload; results := {[ "status" := "1" ]} |}.

Definition server_error (_ : message) (_ : list (string * string)) : result (Response Z) :=
  Ok {| getData := None; results := {[ "error" := "no map for this plateifu" ]} |}.

Definition server_down (_ : message) (_ : list (string * string)) : result (Response Z) :=
  Raise (Exn (OtherError "ConnectionError") (Text "connection refused")).

End Samples.

(** ** The other methods of drp/base.py and tools/map.py *)

Module Methods.
Import Drp MapTool.

(** [AssertionError], raised by a failed [assert]. *)
Definition AssertionError : exn_class := OtherError "AssertionError".

(** [DataCube.db_column]: the assertion on [ext] and the three cases
    that follow it. *)
Definition DataCube_db_column (self : DataCube.t) (ext : option string) : result string :=
  match ext with
  | None => Ok (DataCube.full self)
  | Some e =>
    if negb (bool_decide (e ∈ ["ivar"; "mask"])) then
      Raise (Exn AssertionError (Text "invalid extension"))
    else if decide (e = "ivar") then
      match DataCube.extension_ivar self with
      | Some extension_ivar => Ok (lower extension_ivar)
      | None =>
        Raise (Exn AssertionError
                   (Format "no ivar for datacube {0!r}" [Repr (DataCube.full self)]))
      end
    else
      match DataCube.extension_mask self with
      | Some extension_mask => Ok (lower extension_mask)
      | None =>
        Raise (Exn AssertionError
                   (Format "no mask for datacube {0!r}" [Repr (DataCube.full self)]))
      end
  end.

(** [Spectrum.db_column]. *)
Definition Spectrum_db_column (self : Spectrum.t) (ext : option string) : result string :=
  match ext with
  | None => Ok (lower (Spectrum.extension_name self))
  | Some e =>
    if decide (e = "std") then
      match Spectrum.extension_std self with
      | Some extension_std => Ok (lower extension_std)
      | None =>
        Raise (Exn AttributeError
                   (Format "{!r} object has no attribute {!r}" [Repr "NoneType"; Repr "lower"]))
      end
    else Raise (Exn ValueError (Text "invalid extension."))
  end.

(** [DataCube.set_parent] on the datacube at [self]: the assertion wants
    the parent to be a [DataCube]. *)
Definition DataCube_set_parent (self : loc) (parent : pyval) (h : gmap loc instance)
    : result (gmap loc instance) :=
  match isinstance_DataCube h parent with
  | Some p => Ok (alter (set_parent (Some p)) self h)
  | None => Raise (Exn AssertionError (Text "parent must be a DataCube"))
  end.

(** [Spectrum.set_parent]. *)
Definition Spectrum_set_parent (self : loc) (parent : pyval) (h : gmap loc instance)
    : result (gmap loc instance) :=
  match isinstance_Spectrum h parent with
  | Some p => Ok (alter (set_parent (Some p)) self h)
  | None => Raise (Exn AssertionError (Text "parent must be a Spectrum"))
  end.

(** The loop of [SpectrumList.__init__]. *)
Fixpoint SpectrumList_extend (self : FuzzyListObj) (the_list : list pyval)
    (h : gmap loc instance) : outcome :=
  match the_list with
  | [] => {| raised := None; heap_after := h; list_after := self |}
  | item :: rest =>
    let o := SpectrumList_append self item true h in
    match raised o with
    | Some _ => o
    | None => SpectrumList_extend (list_after o) rest (heap_after o)
    end
  end.

(** Every reference of the list leads to a [Spectrum]. *)
Definition all_spectra (h : gmap loc instance) (self : FuzzyListObj) : Prop :=
  Forall (fun l => exists s, h !! l = Some (InstSpectrum s)) (list_items self).

(** *** to_table *)

(** The table that [to_table] builds: the release kept in [meta], the
    names of the columns, and the rows as they are handed to [add_row].
    How astropy stores a cell in a column of fixed width is not part of
    the model. *)
Inductive cell :=
| CStr (s : string)
| CBool (b : bool).

Record Table := {
  meta_release : option string;
  colnames : list string;
  rows : list (list cell)
}.

Definition new_table (release : option string) : Table :=
  {| meta_release := release;
     colnames := ["name"; "ivar"; "mask"; "unit"; "description"];
     rows := [] |}.

Definition add_row (t : Table) (row : list cell) : Table :=
  {| meta_release := meta_release t; colnames := colnames t; rows := rows t ++ [row] |}.

(** [remove_column('description')], the last column. *)
Definition remove_description (t : Table) : Table :=
  {| meta_release := meta_release t;
     colnames := filter (fun c => c <> "description") (colnames t);
     rows := (fun row => take 4 row) <$> rows t |}.

Definition is_not_None {A} (x : option A) : bool :=
  match x with Some _ => true | None => false end.

(** The attributes [extension_...] of a spectrum: those that
    [Spectrum.__init__] sets.  Reading another one is an AttributeError. *)
Definition Spectrum_extension (self : Spectrum.t) (attr : string) : result (option string) :=
  if decide (attr = "extension_name") then Ok (Some (Spectrum.extension_name self))
  else if decide (attr = "extension_wave") then Ok (Spectrum.extension_wave self)
  else if decide (attr = "extension_std") then Ok (Spectrum.extension_std self)
  else Raise (Exn AttributeError
                  (Format "{!r} object has no attribute {!r}" [Repr "Spectrum"; Repr attr])).

(** The row that [SpectrumList.to_table] adds for a spectrum. *)
Definition spectrum_row (spectrum : Spectrum.t) : result (list cell) :=
  let unit := Spectrum.unit spectrum in
  extension_ivar ← Spectrum_extension spectrum "extension_ivar";
  extension_mask ← Spectrum_extension spectrum "extension_mask";
  Ok [CStr (Spectrum.name spectrum);
      CBool (is_not_None extension_ivar);
      CBool (is_not_None extension_mask);
      CStr unit;
      CStr (Spectrum.description spectrum)].

(** [SpectrumList.to_table]. *)
Definition SpectrumList_to_table (parent : option DRPDataModel) (items : list Spectrum.t)
    (pprint description : bool) : result (option Table) :=
  let spectrum_table := new_table (release <$> parent) in
  new_rows ← for_each spectrum_row items;
  let spectrum_table := foldl add_row spectrum_table new_rows in
  let spectrum_table :=
    if description then spectrum_table else remove_description spectrum_table in
  if pprint then Ok None else Ok (Some spectrum_table).

(** *** Map.plot *)

(** The first steps of [Map.plot], up to the choice of the array to draw:
    the test of the matplotlib import, [array.lower()], the assertion on
    the name and the three cases.  What follows in [plot] are calls to
    matplotlib. *)
Definition plot_data {scalar} (pyplot : bool) (self : Map.t scalar) (array : string)
    : result (option (ndarray scalar)) :=
  if negb pyplot then
    Raise (Exn (OtherError "MarvinMissingDependency") (Text "matplotlib is not installed."))
  else
    let array := lower array in
    if negb (bool_decide (array ∈ ["value"; "ivar"; "mask"])) then
      Raise (Exn AssertionError
                 (Format "array must be one of {0!r}" [Repr "['value', 'ivar', 'mask']"]))
    else if decide (array = "value") then Ok (Map.value self)
    else if decide (array = "ivar") then Ok (Map.ivar self)
    else Ok (Map.mask self).

(** A two-dimensional array of the given shape. *)
Definition is_grid {scalar} (shape : nat * nat) (a : ndarray scalar) : Prop :=
  exists grid : list (list scalar),
    a = array2 grid
    /\ length grid = shape.1
    /\ Forall (fun row => length row = shape.2) grid.

End Methods.

(** ** More samples *)

Module MoreSamples.
Import Drp MapTool Samples.

Definition flux_cube : DataCube.t :=
  DataCube.Make "flux" "FLUX" (Some "WAVE") (Some "IVAR") None "1E-17 erg/s/cm^2/Ang/spaxel"
                1 ∅ "3D rectified cube" None.

Definition specres : Spectrum.t :=
  Spectrum.Make "spectral_resolution" "SPECRES" (Some "WAVE") (Some "SPECRESD") "Ang"
                1 ∅ "Median spectral resolution" None.

Definition mpl6 : DRPDataModel :=
  {| release := "MPL-6"; aliases := [];
     datacubes := [flux_cube; datacube "dispersion" "DISP"];
     spectra := [specres] |}.

(** A heap with two datacubes, a spectrum and a datamodel object. *)
Definition registry_heap : gmap loc instance :=
  {[ 1%positive := InstDataCube flux_cube;
     2%positive := InstDataCube (datacube "dispersion" "DISP");
     3%positive := InstSpectrum specres;
     9%positive := InstOther "DRPDataModel" None ]}.


(** A file with the extensions of [stellar_vel]. *)
Definition vel_hdu (data : list (list Z)) : ImageHDU.t Z :=
  ImageHDU.Make (FitsHeader {[ "EXTNAME" := "STELLAR_VEL" ]}) (array2 data).

Definition vel_file : Maps.t Z :=
  Maps.Make (2, 2)%nat properties "file"
            (Maps.HDUList (fun ext =>
               if decide (ext = "stellar_vel") then Some (vel_hdu [[10; 20]; [30; 40]])
               else if decide (ext = "stellar_vel_ivar") then Some (vel_hdu [[1; 1]; [1; 1]])
               else if decide (ext = "stellar_vel_mask") then Some (vel_hdu [[0; 0]; [0; 1]])
               else None))
            "8485-1901" "v2_3_1" "2.0.2".

(** Three rows for a grid of four spaxels. *)
Definition rows_short : list (SpaxelProp.t Z) :=
  [row 0 1 5 10 100 0; row 1 2 6 20 200 0; row 2 3 7 30 300 1].

(** A row without the columns of [stellar_vel]. *)
Definition rows_no_column : list (SpaxelProp.t Z) :=
  [row 0 1 5 10 100 0;
   SpaxelProp.Make 1 {[ "emline_gflux_ha_6564" := 2; "emline_gflux_hb_4862" := 6 ]};
   row 2 3 7 30 300 1; row 3 4 8 40 400 1].

(** A server that answers without data and without an error entry. *)
Definition server_mute (_ : message) (_ : list (string * string)) : result (Response Z) :=
  Ok {| getData := None; results := {[ "status" := "-1" ]} |}.

(** Header rows whose match for [stellar_vel] holds no card. *)
Definition header_rows_empty : list HDURow.t :=
  [HDURow.Make "PRIMARY" {[ "NAXIS" := "0" ]}; HDURow.Make "Stellar_Vel" ∅;
   HDURow.Make "STELLAR_VEL" {[ "BUNIT" := "km/s" ]}].

Definition from_db_with (rows : list (SpaxelProp.t Z)) (hdus : list HDURow.t) : Maps.t Z :=
  Maps.Make (2, 2)%nat properties "db" (Maps.DBFile [] rows hdus)
            "8485-1901" "v2_3_1" "2.0.2".

(** The same stores under another registry of properties. *)
Definition with_properties (properties : string -> option MapsProperty.t) (maps : Maps.t Z)
    : Maps.t Z :=
  Maps.Make (Maps.shape maps) properties (Maps.data_origin maps) (Maps.data maps)
            (Maps.plateifu maps) (Maps._drpver maps) (Maps._dapver maps).

(** A registry that lists the channels of [emline_gflux] the other way
    round, and one that spells a channel with a capital letter. *)
Definition emline_reversed : MapsProperty.t :=
  MapsProperty.Make "emline_gflux" (Some ["hb_4862"; "ha_6564"]) false false
                    (MapsProperty.UnitOne (Some "1E-17 erg/s/cm^2/spaxel"))
                    (fullname "emline_gflux").

Definition properties_reversed (name : string) : option MapsProperty.t :=
  if decide (name = "emline_gflux") then Some emline_reversed else properties name.

Definition emline_mixed : MapsProperty.t :=
  MapsProperty.Make "emline_gflux" (Some ["Ha_6564"]) false false
                    (MapsProperty.UnitOne (Some "1E-17 erg/s/cm^2/spaxel"))
                    (fullname "emline_gflux").

Definition properties_mixed (name : string) : option MapsProperty.t :=
  if decide (name = "emline_gflux") then Some emline_mixed else properties name.

(** Two rows under one index, in the two orders of arrival, for a grid
    of one row and two columns. *)
Definition rows_tied : list (SpaxelProp.t Z) :=
  [row 0 1 5 10 100 0; row 0 2 6 20 200 1].

Definition rows_tied_swapped : list (SpaxelProp.t Z) :=
  [row 0 2 6 20 200 1; row 0 1 5 10 100 0].

Definition from_db_strip (rows : list (SpaxelProp.t Z)) : Maps.t Z :=
  Maps.Make (1, 2)%nat properties "db" (Maps.DBFile [] rows header_rows)
            "8485-1901" "v2_3_1" "2.0.2".


End MoreSamples.

(** * Properties *)

(** ** The lookup of the datamodel *)

Module DrpLookup.
Import Drp.

Section facts.
Variable fuzzy : forall A : Type, (A -> string) -> list A -> string -> result A.

Lemma index_first {A} `{EqDecision A} (l : list A) (i : nat) (v : A) :
  l !! i = Some v ->
  (forall j, (j < i)%nat -> l !! j <> Some v) ->
  index v l = Some i.
Proof.
  intros Hi Hmin. unfold index.
  assert (list_find (fun x => x = v) l = Some (i, v)) as ->; [|done].
  apply list_find_Some. split_and!; [done..|].
  intros j y Hj Hlt ->. by apply (Hmin j).
Qed.

(** The name of a datacube is answered by the first datacube of that
    name. *)
Lemma eq_datacube_name (self : DRPDataModel) (i : nat) (d : DataCube.t) :
  datacubes self !! i = Some d ->
  (forall j d', (j < i)%nat -> datacubes self !! j = Some d' ->
                DataCube.name d' <> DataCube.name d) ->
  DRPDataModel_eq fuzzy self (DataCube.name d) = Ok (IsDataCube d).
Proof.
  intros Hi Hmin. unfold DRPDataModel_eq.
  rewrite bool_decide_eq_true_2.
  2: { apply list_elem_of_fmap. exists d. split; [done|].
       by eapply list_elem_of_lookup_2. }
  rewrite (index_first _ i).
  - simpl. by rewrite Hi.
  - by rewrite list_lookup_fmap, Hi.
  - intros j Hlt. rewrite list_lookup_fmap.
    destruct (datacubes self !! j) as [d'|] eqn:Hj; simpl; [|done].
    intros [=]. by eapply Hmin.
Qed.

(** The name of a spectrum that no datacube bears is answered by the
    first spectrum of that name. *)
Lemma eq_spectrum_name (self : DRPDataModel) (i : nat) (s : Spectrum.t) :
  spectra self !! i = Some s ->
  Spectrum.name s ∉ DataCube.name <$> datacubes self ->
  (forall j s', (j < i)%nat -> spectra self !! j = Some s' ->
                Spectrum.name s' <> Spectrum.name s) ->
  DRPDataModel_eq fuzzy self (Spectrum.name s) = Ok (IsSpectrum s).
Proof.
  intros Hi Hnot Hmin. unfold DRPDataModel_eq.
  rewrite bool_decide_eq_false_2 by done.
  rewrite bool_decide_eq_true_2.
  2: { apply list_elem_of_fmap. exists s. split; [done|].
       by eapply list_elem_of_lookup_2. }
  rewrite (index_first _ i).
  - simpl. by rewrite Hi.
  - by rewrite list_lookup_fmap, Hi.
  - intros j Hlt. rewrite list_lookup_fmap.
    destruct (spectra self !! j) as [s'|] eqn:Hj; simpl; [|done].
    intros [=]. by eapply Hmin.
Qed.

(** Past the exact names, the answer is decided by the two fuzzy
    lookups alone. *)
Lemma eq_fuzzy_stage (self : DRPDataModel) (value : string) :
  value ∉ DataCube.name <$> datacubes self ->
  value ∉ Spectrum.name <$> spectra self ->
  DRPDataModel_eq fuzzy self value =
    (datacube_best_match ←
       try_except (Some <$> fuzzy _ DataCube.full (datacubes self) value)
                  ValueError (Ok None);
     spectrum_best_match ←
       try_except (Some <$> fuzzy _ Spectrum.full (spectra self) value)
                  ValueError (Ok None);
     match datacube_best_match, spectrum_best_match with
     | None, None => Raise (too_ambiguous value)
     | Some _, Some _ => Raise (too_ambiguous value)
     | Some d, None => Ok (IsDataCube d)
     | None, Some s => Ok (IsSpectrum s)
     end).
Proof.
  intros Hd Hs. unfold DRPDataModel_eq.
  by rewrite !bool_decide_eq_false_2 by done.
Qed.

Lemma try_except_raises {A} (m : result A) (cls : exn_class) :
  raises m cls -> try_except (Some <$> m) cls (Ok None) = Ok None.
Proof.
  destruct m as [a|e]; simpl; [done|]. intros ->.
  unfold try_except; simpl. by rewrite decide_True.
Qed.

(** C1, as amended.  When [value] is the name of no datacube and of no
    spectrum, and the fuzzy lookup finds an entry among the datacubes
    and an entry among the spectra, [DRPDataModel.__getitem__] raises
    the ValueError [too ambiguous input] and returns neither entry. *)
Theorem ambiguous_in_both_kinds (self : DRPDataModel) (value : string)
    (d : DataCube.t) (s : Spectrum.t) :
  value ∉ DataCube.name <$> datacubes self ->
  value ∉ Spectrum.name <$> spectra self ->
  fuzzy _ DataCube.full (datacubes self) value = Ok d ->
  fuzzy _ Spectrum.full (spectra self) value = Ok s ->
  DRPDataModel_getitem fuzzy self value = Raise (too_ambiguous value).
Proof.
  intros Hd Hs Hfd Hfs. unfold DRPDataModel_getitem.
  rewrite eq_fuzzy_stage by done. by rewrite Hfd, Hfs.
Qed.

(** C3, as amended.  A lookup that reaches the fuzzy stage has four
    outcomes.  It raises the ValueError [too ambiguous input] when the
    fuzzy lookup fails with a ValueError in both kinds, and the very
    same error when it finds an entry in both kinds; when it finds an
    entry in one kind and fails with a ValueError in the other, that
    entry is returned. *)
Theorem fuzzy_stage_outcomes (self : DRPDataModel) (value : string) :
  value ∉ DataCube.name <$> datacubes self ->
  value ∉ Spectrum.name <$> spectra self ->
  (raises (fuzzy _ DataCube.full (datacubes self) value) ValueError ->
   raises (fuzzy _ Spectrum.full (spectra self) value) ValueError ->
   DRPDataModel_getitem fuzzy self value = Raise (too_ambiguous value))
  /\ (forall d s,
        fuzzy _ DataCube.full (datacubes self) value = Ok d ->
        fuzzy _ Spectrum.full (spectra self) value = Ok s ->
        DRPDataModel_getitem fuzzy self value = Raise (too_ambiguous value))
  /\ (forall d,
        fuzzy _ DataCube.full (datacubes self) value = Ok d ->
        raises (fuzzy _ Spectrum.full (spectra self) value) ValueError ->
        DRPDataModel_getitem fuzzy self value = Ok (IsDataCube d))
  /\ (forall s,
        raises (fuzzy _ DataCube.full (datacubes self) value) ValueError ->
        fuzzy _ Spectrum.full (spectra self) value = Ok s ->
        DRPDataModel_getitem fuzzy self value = Ok (IsSpectrum s)).
Proof.
  intros Hd Hs. unfold DRPDataModel_getitem.
  rewrite eq_fuzzy_stage by done. split_and!.
  - intros H1 H2. by rewrite !try_except_raises.
  - intros d s H1 H2. by rewrite H1, H2.
  - intros d H1 H2. rewrite H1. by rewrite (try_except_raises (fuzzy _ Spectrum.full _ _)).
  - intros s H1 H2.
    rewrite (try_except_raises (fuzzy _ DataCube.full _ _)) by done. by rewrite H2.
Qed.

(** C8, as amended.  Looking up the name of a datacube returns that
    datacube when no datacube before it in the list bears the same
    name; looking up the name of a spectrum returns that spectrum when
    no datacube bears the name and no spectrum before it does. *)
Theorem own_name_lookup (self : DRPDataModel) :
  (forall i d,
      datacubes self !! i = Some d ->
      (forall j d', (j < i)%nat -> datacubes self !! j = Some d' ->
                    DataCube.name d' <> DataCube.name d) ->
      DRPDataModel_getitem fuzzy self (DataCube.name d) = Ok (IsDataCube d))
  /\ (forall i s,
        spectra self !! i = Some s ->
        Spectrum.name s ∉ DataCube.name <$> datacubes self ->
        (forall j s', (j < i)%nat -> spectra self !! j = Some s' ->
                      Spectrum.name s' <> Spectrum.name s) ->
        DRPDataModel_getitem fuzzy self (Spectrum.name s) = Ok (IsSpectrum s)).
Proof.
  split.
  - intros i d Hi Hmin. by apply (eq_datacube_name self i).
  - intros i s Hi Hnot Hmin. by apply (eq_spectrum_name self i).
Qed.
End facts.

Import Samples.

(** The query [flux] on a registry whose datacube and spectrum are named
    otherwise and both stored in the extension [FLUX]. *)
Lemma ambiguous_in_both_kinds_witness :
  DRPDataModel_getitem Samples.fuzzy same_extension "flux" = Raise (too_ambiguous "flux").
Proof.
  apply (ambiguous_in_both_kinds Samples.fuzzy same_extension "flux"
           (datacube "cube_flux" "FLUX") (spectrum "spec_flux" "FLUX")).
  - compute_done.
  - compute_done.
  - vm_compute. reflexivity.
  - vm_compute. reflexivity.
Defined.

(** C1 fails on the code: [flux] is the name of a datacube and of a
    spectrum, the fuzzy lookup finds it in both kinds too, and the lookup
    returns the datacube. *)
Lemma exact_name_in_both_kinds :
  "flux" ∈ DataCube.name <$> datacubes same_name
  /\ "flux" ∈ Spectrum.name <$> spectra same_name
  /\ Samples.fuzzy _ DataCube.full (datacubes same_name) "flux" = Ok (datacube "flux" "FLUX")
  /\ Samples.fuzzy _ Spectrum.full (spectra same_name) "flux" = Ok (spectrum "flux" "FLUX")
  /\ DRPDataModel_getitem Samples.fuzzy same_name "flux"
     = Ok (IsDataCube (datacube "flux" "FLUX")).
Proof.
  split_and!; [compute_done | compute_done | vm_compute; reflexivity ..].
Qed.

(** The four outcomes, on three small registries. *)
Lemma fuzzy_stage_outcomes_witness :
  DRPDataModel_getitem Samples.fuzzy no_entry "flux" = Raise (too_ambiguous "flux")
  /\ DRPDataModel_getitem Samples.fuzzy same_extension "flux" = Raise (too_ambiguous "flux")
  /\ DRPDataModel_getitem Samples.fuzzy two_entries "disp"
     = Ok (IsDataCube (datacube "dispersion" "DISP"))
  /\ DRPDataModel_getitem Samples.fuzzy two_entries "specres"
     = Ok (IsSpectrum (spectrum "spectral_resolution" "SPECRES")).
Proof.
  split_and!.
  - destruct (fuzzy_stage_outcomes Samples.fuzzy no_entry "flux") as (H & _);
      [compute_done | compute_done |].
    apply H; vm_compute; reflexivity.
  - destruct (fuzzy_stage_outcomes Samples.fuzzy same_extension "flux") as (_ & H & _);
      [compute_done | compute_done |].
    apply (H (datacube "cube_flux" "FLUX") (spectrum "spec_flux" "FLUX"));
      vm_compute; reflexivity.
  - destruct (fuzzy_stage_outcomes Samples.fuzzy two_entries "disp") as (_ & _ & H & _);
      [compute_done | compute_done |].
    apply H; vm_compute; reflexivity.
  - destruct (fuzzy_stage_outcomes Samples.fuzzy two_entries "specres") as (_ & _ & _ & H);
      [compute_done | compute_done |].
    apply H; vm_compute; reflexivity.
Defined.

(** C3 fails on the code: with no candidate in either kind the lookup
    raises [too ambiguous input], the very exception it raises when both
    kinds hold a match. *)
Lemma no_match_reported_as_ambiguous :
  FuzzyList.find similar DataCube.full [] (datacubes no_entry) "flux" = FuzzyList.NotFound
  /\ FuzzyList.find similar Spectrum.full [] (spectra no_entry) "flux" = FuzzyList.NotFound
  /\ DRPDataModel_getitem Samples.fuzzy no_entry "flux" = Raise (too_ambiguous "flux")
  /\ DRPDataModel_getitem Samples.fuzzy same_extension "flux" = Raise (too_ambiguous "flux").
Proof. split_and!; vm_compute; reflexivity. Qed.

(** Every entry of this registry is found under its own name. *)
Lemma own_name_lookup_witness :
  DRPDataModel_getitem Samples.fuzzy two_entries "dispersion"
    = Ok (IsDataCube (datacube "dispersion" "DISP"))
  /\ DRPDataModel_getitem Samples.fuzzy two_entries "spectral_resolution"
     = Ok (IsSpectrum (spectrum "spectral_resolution" "SPECRES")).
Proof.
  split.
  - apply (proj1 (own_name_lookup Samples.fuzzy two_entries) 1%nat
                 (datacube "dispersion" "DISP")); [reflexivity|].
    intros [|[|j]] d' Hlt Hj; [|lia..].
    injection Hj as <-. compute_done.
  - apply (proj2 (own_name_lookup Samples.fuzzy two_entries) 0%nat
                 (spectrum "spectral_resolution" "SPECRES"));
      [reflexivity | compute_done | lia].
Defined.

(** C8 fails on the code: the spectrum [flux] of this registry, looked up
    under its own name, is answered by the datacube of that name. *)
Lemma spectrum_name_taken_by_datacube :
  spectra same_name !! 0%nat = Some (spectrum "flux" "FLUX")
  /\ DRPDataModel_getitem Samples.fuzzy same_name (Spectrum.name (spectrum "flux" "FLUX"))
     = Ok (IsDataCube (datacube "flux" "FLUX")).
Proof. split; vm_compute; reflexivity. Qed.

End DrpLookup.

(** ** Appending to a DataCubeList *)

Module DrpAppend.
Import Drp Samples.

(** A value that is no instance cannot take the [parent] attribute: the
    call ends in an AttributeError before the type is looked at, and the
    list is as it was. *)
Lemma append_atom (self : FuzzyListObj) (v : pyval) (copy : bool) (h : gmap loc instance) :
  (forall l, v <> VRef l) ->
  DataCubeList_append self v copy h
  = {| raised := Some (no_attribute h v); heap_after := h; list_after := self |}.
Proof.
  intros Hatom. unfold DataCubeList_append.
  destruct v as [| z | s | l]; [| | | by destruct (Hatom l)];
    by destruct copy.
Qed.

(** With [copy=True] a datacube is stored as a new object, whose parent
    is the parent of the list. *)
Lemma append_copy_datacube (self : FuzzyListObj) (l : loc) (d : DataCube.t)
    (h : gmap loc instance) :
  h !! l = Some (InstDataCube d) ->
  DataCubeList_append self (VRef l) true h
  = {| raised := None;
       heap_after := <[fresh (dom h) := InstDataCube (DataCube.set_parent_attr (list_parent self) d)]> h;
       list_after := push self (fresh (dom h)) |}.
Proof.
  intros Hl. unfold DataCubeList_append, deepcopy. rewrite Hl.
  unfold setattr_parent. rewrite lookup_insert_eq.
  unfold isinstance_DataCube. rewrite lookup_insert_eq. simpl.
  by rewrite insert_insert_eq.
Qed.

(** The stored copy is no object of the heap the caller knew: the object
    handed in is unchanged, and no later write to an object of that heap
    reaches the copy. *)
Lemma append_copy_isolated (self : FuzzyListObj) (l : loc) (d : DataCube.t)
    (h : gmap loc instance) :
  h !! l = Some (InstDataCube d) ->
  let o := DataCubeList_append self (VRef l) true h in
  (fresh (dom h) ∉ dom h)
  /\ heap_after o !! l = Some (InstDataCube d)
  /\ (forall l0 o0, l0 ∈ dom h ->
       <[l0 := o0]> (heap_after o) !! fresh (dom h) = heap_after o !! fresh (dom h)).
Proof.
  intros Hl o. subst o. rewrite (append_copy_datacube _ _ d) by done. simpl.
  pose proof (is_fresh (dom h)) as Hfresh.
  split_and!; [done| |].
  - rewrite lookup_insert_ne; [done|]. intros Heq.
    apply Hfresh. rewrite Heq. apply elem_of_dom. by eexists.
  - intros l0 o0 Hl0. rewrite lookup_insert_ne; [done|]. by intros ->.
Qed.

(** An instance of another class is refused with a ValueError, and the
    list is as it was. *)
Lemma append_other_instance (self : FuzzyListObj) (l : loc) (copy : bool)
    (h : gmap loc instance) :
  (exists s, h !! l = Some (InstSpectrum s)) \/ (exists c p, h !! l = Some (InstOther c p)) ->
  let o := DataCubeList_append self (VRef l) copy h in
  (exists e, raised o = Some e /\ exn_cls e = ValueError) /\ list_after o = self.
Proof.
  intros Hl o. subst o. unfold DataCubeList_append, deepcopy.
  destruct Hl as [[s Hl]|(c & p & Hl)]; rewrite Hl; destruct copy;
    unfold setattr_parent; rewrite ?lookup_insert_eq, ?Hl;
    unfold isinstance_DataCube; rewrite lookup_insert_eq; simpl; eauto.
Qed.

(** [append] keeps the list a list of datacubes, whatever it is given. *)
Lemma append_all_datacubes (self : FuzzyListObj) (v : pyval) (copy : bool)
    (h : gmap loc instance) :
  all_datacubes h self ->
  let o := DataCubeList_append self v copy h in
  all_datacubes (heap_after o) (list_after o).
Proof.
  intros Hall o. subst o. unfold DataCubeList_append.
  assert (forall h' : gmap loc instance,
             (forall l d, h !! l = Some (InstDataCube d) ->
                          exists d', h' !! l = Some (InstDataCube d')) ->
             all_datacubes h' self) as Hmono.
  { intros h' Hh'. unfold all_datacubes in *.
    eapply Forall_impl; [exact Hall|]. intros l [d Hd]. by eapply Hh'. }
  assert (forall (h1 : gmap loc instance) l1 o1,
             (forall d, h1 !! l1 = Some (InstDataCube d) -> exists d', o1 = InstDataCube d') ->
             (forall l d, h !! l = Some (InstDataCube d) ->
                          exists d', h1 !! l = Some (InstDataCube d')) ->
             forall l d, h !! l = Some (InstDataCube d) ->
                         exists d', <[l1 := o1]> h1 !! l = Some (InstDataCube d')) as Hins.
  { intros h1 l1 o1 Ho1 Hh1 l d Hl. destruct (decide (l1 = l)) as [->|Hne].
    - rewrite lookup_insert_eq. destruct (Hh1 _ _ Hl) as [d' Hd'].
      destruct (Ho1 _ Hd') as [d'' ->]. eauto.
    - rewrite lookup_insert_ne by done. eauto. }
  destruct (if copy then deepcopy v h else (v, h)) as [append_obj h1] eqn:Hcopy.
  assert (forall l d, h !! l = Some (InstDataCube d) ->
                      exists d', h1 !! l = Some (InstDataCube d')) as Hh1.
  { destruct copy; [|injection Hcopy as <- <-; eauto].
    unfold deepcopy in Hcopy. destruct v as [| | |l0]; try (injection Hcopy as <- <-; eauto).
    destruct (h !! l0) as [[d0|s0|c0 p0|c0 p0]|] eqn:Hl0; injection Hcopy as <- <-;
      try (by eauto).
    all: intros l d Hl; (rewrite lookup_insert_ne; [eauto|]);
      intros <-; pose proof (is_fresh (dom h)) as Hfresh;
      apply Hfresh, elem_of_dom; by eexists. }
  destruct (setattr_parent append_obj (list_parent self) h1) as [h2|e] eqn:Hset; simpl.
  2: { by apply Hmono. }
  assert (forall l d, h !! l = Some (InstDataCube d) ->
                      exists d', h2 !! l = Some (InstDataCube d')) as Hh2.
  { unfold setattr_parent in Hset. destruct append_obj as [| | |l2]; try done.
    destruct (h1 !! l2) as [o2|] eqn:Hl2; [|done]. injection Hset as <-.
    apply Hins; [|done]. intros d Hd. rewrite Hl2 in Hd. injection Hd as ->.
    simpl. eauto. }
  destruct (isinstance_DataCube h2 append_obj) as [l|] eqn:Hinst; simpl.
  2: { by apply Hmono. }
  unfold all_datacubes, push. simpl. apply Forall_app. split.
  - by apply Hmono.
  - apply Forall_singleton. unfold isinstance_DataCube in Hinst.
    destruct append_obj as [| | |l2]; try done.
    destruct (h2 !! l2) as [[d| | |]|] eqn:Hl2; try done.
    injection Hinst as <-. eauto.
Qed.

(** The datacube of the sample heap is stored as the new object 4, with
    the parent of the list; the spectrum is refused. *)
Example append_sample_datacube :
  let o := DataCubeList_append empty_list (VRef 1%positive) true sample_heap in
  raised o = None
  /\ list_items (list_after o) = [4%positive]
  /\ heap_after o !! 4%positive
     = Some (InstDataCube (DataCube.set_parent_attr (Some 9%positive) (datacube "flux" "FLUX")))
  /\ heap_after o !! 1%positive = Some (InstDataCube (datacube "flux" "FLUX")).
Proof. split_and!; vm_compute; reflexivity. Qed.

Example append_sample_spectrum :
  let o := DataCubeList_append empty_list (VRef 2%positive) true sample_heap in
  raised o = Some (Exn ValueError
                       (Format "invalid datacube of type {!r}" [ReprType "Spectrum"]))
  /\ list_after o = empty_list.
Proof. split; vm_compute; reflexivity. Qed.

(** C9 fails on the code.  [DataCubeList([], parent).append('flux')]:
    the string is no [DataCube], and the call ends in an AttributeError,
    raised by the assignment of [parent] that comes before the test of
    the type, where the claim has a ValueError.  The list is unchanged. *)
Theorem append_string_AttributeError :
  let o := DataCubeList_append empty_list (VStr "flux") true ∅ in
  raised o = Some (Exn AttributeError
                       (Format "{!r} object has no attribute {!r}" [Repr "str"; Repr "parent"]))
  /\ raised o <> Some (Exn ValueError
                           (Format "invalid datacube of type {!r}" [ReprType "str"]))
  /\ list_after o = empty_list.
Proof. rewrite append_atom by done. simpl. split_and!; done. Qed.

End DrpAppend.

(** ** Case of letters *)

Module Letters.

Lemma lower_ascii_idem (c : ascii) : lower_ascii (lower_ascii c) = lower_ascii c.
Proof. destruct c as [[] [] [] [] [] [] [] []]; reflexivity. Qed.

Lemma lower_ascii_not_upper (c : ascii) : is_upper_ascii (lower_ascii c) = false.
Proof. destruct c as [[] [] [] [] [] [] [] []]; reflexivity. Qed.

Lemma lower_upper_ascii (c : ascii) : lower_ascii (upper_ascii c) = lower_ascii c.
Proof. destruct c as [[] [] [] [] [] [] [] []]; reflexivity. Qed.

Lemma lower_idem (s : string) : lower (lower s) = lower s.
Proof. induction s as [|c s IH]; simpl; [done|]. by rewrite lower_ascii_idem, IH. Qed.

Lemma islower_lower (s : string) : islower (lower s) = true.
Proof. induction s as [|c s IH]; simpl; [done|]. by rewrite lower_ascii_not_upper, IH. Qed.

Lemma recased_lower (s t : string) : recased s t -> lower s = lower t.
Proof.
  revert t. induction s as [|a s IH]; intros [|b t]; simpl; try done.
  intros [Hab Hst]. by rewrite Hab, (IH t).
Qed.

Lemma recased_truthy (s t : string) : recased s t -> truthy s = truthy t.
Proof. destruct s, t; simpl; tauto. Qed.

Lemma recased_lower_self (s : string) : recased s (lower s).
Proof. induction s as [|a s IH]; simpl; [done|]. by rewrite lower_ascii_idem. Qed.

Lemma recased_upper_self (s : string) : recased s (upper s).
Proof. induction s as [|a s IH]; simpl; [done|]. by rewrite lower_upper_ascii. Qed.

End Letters.

(** ** The constructor of Map *)

Module MapInit.
Import MapTool Letters.

(** An exception of a comprehension is an exception of its body. *)
Lemma for_each_Raise {A B} (f : A -> result B) (l : list A) (e : exn) :
  for_each f l = Raise e -> exists x, x ∈ l /\ f x = Raise e.
Proof.
  induction l as [|x l IH]; simpl; [done|].
  destruct (f x) as [y|e'] eqn:Hx; simpl.
  - destruct (for_each f l) as [ys|e'']; simpl; [done|].
    intros [= ->]. destruct IH as (x' & Hin & Hx'); [done|].
    exists x'. split; [by apply list_elem_of_further|done].
  - intros [= ->]. exists x. split; [apply list_elem_of_here|done].
Qed.

Section facts.
Context {scalar : Type}.
Variable StrictVersion : string -> option strict_version.
Variable Interaction : message -> list (string * string) -> result (Response scalar).
Variable getmap_url : string.

Local Abbreviation Map_init := (Map_init StrictVersion Interaction getmap_url).
Local Abbreviation _load_map_from_db := (_load_map_from_db StrictVersion).
Local Abbreviation _load_map_from_api := (_load_map_from_api Interaction getmap_url).

Ltac unfold_result :=
  unfold mbind, result_bind, fmap, result_fmap, mret, result_ret in *.
Ltac split_result :=
  repeat (case_match; simplify_eq/=; unfold_result).

(** A loader assigns the arrays, the header and the unit of [self]
    and nothing else. *)
Lemma file_loaded (self m : Map.t scalar) :
  _load_map_from_file self = Ok m ->
  exists value ivar mask header unit, m = Map.loaded self value ivar mask header unit.
Proof.
  unfold _load_map_from_file. unfold_result. intros H.
  split_result; eauto 10.
Qed.

Lemma db_loaded (self m : Map.t scalar) (w : list warning) :
  _load_map_from_db self = Ok (m, w) ->
  exists value ivar mask header unit, m = Map.loaded self value ivar mask header unit.
Proof.
  unfold MapTool._load_map_from_db. unfold_result. intros H.
  split_result; eauto 10.
Qed.

Lemma api_loaded (self m : Map.t scalar) :
  _load_map_from_api self = Ok m ->
  exists value ivar mask header unit, m = Map.loaded self value ivar mask header unit.
Proof.
  unfold MapTool._load_map_from_api. unfold_result. intros H.
  split_result; eauto 10.
Qed.

(** The exceptions of the file and database loaders are not of the
    class MarvinError, and those of the remote loader carry a message
    of their own. *)
Lemma file_not_MarvinError (self : Map.t scalar) (e : exn) :
  _load_map_from_file self = Raise e -> exn_cls e <> MarvinError.
Proof.
  unfold _load_map_from_file, hdulist_getitem, channels_index, file_unit, getitem.
  unfold_result. intros H. split_result; done.
Qed.

Lemma db_array_not_MarvinError (spaxels : list (SpaxelProp.t scalar))
    (order : list nat) (column : string) (shape : nat * nat) (e : exn) :
  db_array spaxels order column shape = Raise e -> exn_cls e <> MarvinError.
Proof.
  unfold db_array. unfold_result.
  destruct (for_each _ spaxels) as [values|e1] eqn:Hvalues.
  - destruct (fancy_index values order) as [ordered|e2] eqn:Hordered.
    + unfold reshape. case_decide; [done|]. by intros [= <-].
    + intros [= ->]. apply for_each_Raise in Hordered as (i & _ & Hi).
      by case_match; simplify_eq.
  - intros [= ->]. apply for_each_Raise in Hvalues as (x & _ & Hx).
    unfold SpaxelProp.getattr in Hx. by case_match; simplify_eq.
Qed.

Lemma db_arrays_not_MarvinError (self : Map.t scalar) (e : exn) :
  db_arrays StrictVersion self = Raise e -> exn_cls e <> MarvinError.
Proof.
  unfold db_arrays, db_spaxels, db_arrays_of, db_spaxelprops, db_spaxelprops5.
  unfold_result. intros H.
  repeat (case_match; simplify_eq/=; unfold_result);
    try done; by eapply db_array_not_MarvinError.
Qed.

Lemma db_not_MarvinError (self : Map.t scalar) (e : exn) :
  _load_map_from_db self = Raise e -> exn_cls e <> MarvinError.
Proof.
  unfold MapTool._load_map_from_db. unfold_result.
  destruct (db_arrays StrictVersion self) as [[[value ivar] mask]|e1] eqn:Harrays.
  - unfold db_hdus. intros H. split_result; done.
  - intros [= ->]. by eapply db_arrays_not_MarvinError.
Qed.

Lemma api_not_invalid (self : Map.t scalar) (e : exn) :
  _load_map_from_api self = Raise e -> e <> invalid_combination.
Proof.
  unfold MapTool._load_map_from_api, dict_getitem. unfold_result.
  intros H. split_result; done.
Qed.

Lemma channel_not_in_spec (channel : option string) (channels : list string) :
  channel_not_in channel channels = true <-> forall c, channel = Some c -> c ∉ channels.
Proof.
  unfold channel_not_in. destruct channel as [c|].
  - rewrite negb_true_iff, bool_decide_eq_false. naive_solver.
  - naive_solver.
Qed.

(** The exception in terms of the channel that the constructor keeps. *)
Lemma invalid_combination_kept_channel (maps : Maps.t scalar) (property_name : string)
    (channel : option string) :
  Map_init maps property_name channel = Raise invalid_combination
  <-> Maps.properties maps (lower property_name) = None
      \/ exists maps_property channels,
           Maps.properties maps (lower property_name) = Some maps_property
           /\ MapsProperty.channels maps_property = Some channels
           /\ forall c, lower_channel channel = Some c -> c ∉ channels.
Proof.
  unfold MapTool.Map_init.
  destruct (Maps.properties maps (lower property_name)) as [p|] eqn:Hp.
  2: { split; [by left|done]. }
  destruct (MapsProperty.channels p) as [channels|] eqn:Hchannels.
  - destruct (channel_not_in (lower_channel channel) channels) eqn:Hnot.
    + split; [|done]. intros _. right. exists p, channels.
      split_and!; [done..|]. by apply channel_not_in_spec.
    + split.
      * intros H. exfalso. unfold_result.
        repeat case_decide.
        -- destruct (_load_map_from_file _) as [m|e] eqn:Hload; [done|].
           injection H as ->. by eapply file_not_MarvinError.
        -- by eapply db_not_MarvinError.
        -- destruct (_load_map_from_api _) as [m|e] eqn:Hload; [done|].
           injection H as ->. by eapply api_not_invalid.
        -- done.
      * intros [|(p' & channels' & [= <-] & Hc & Hnone)]; [done|].
        rewrite Hchannels in Hc. injection Hc as <-.
        apply channel_not_in_spec in Hnone. congruence.
  - split.
    + intros H. exfalso. unfold_result.
      repeat case_decide.
      * destruct (_load_map_from_file _) as [m|e] eqn:Hload; [done|].
        injection H as ->. by eapply file_not_MarvinError.
      * by eapply db_not_MarvinError.
      * destruct (_load_map_from_api _) as [m|e] eqn:Hload; [done|].
        injection H as ->. by eapply api_not_invalid.
      * done.
    + intros [|(p' & channels' & [= <-] & Hc & _)]; [done|]. congruence.
Qed.

(** [channel.lower() if channel else None], case by case. *)
Lemma lower_channel_cases (channel : option string) :
  lower_channel channel
  = match channel with
    | Some c => if decide (c = "") then None else Some (lower c)
    | None => None
    end.
Proof. by destruct channel as [[|a c]|]. Qed.

(** C5, as amended.  [Map(maps, property_name, channel)] raises the
    MarvinError [invalid combination of property name and channel.]
    exactly when the lower-cased property name has no entry in
    [maps.properties], or its entry has a list of channels and the
    channel given is [None], is the empty string, or is a string whose
    lower-cased form is not in that list.  The test is made on the
    lower-cased channel, not on the channel as given. *)
Theorem invalid_combination_iff (maps : Maps.t scalar) (property_name : string)
    (channel : option string) :
  Map_init maps property_name channel = Raise invalid_combination
  <-> Maps.properties maps (lower property_name) = None
      \/ exists maps_property channels,
           Maps.properties maps (lower property_name) = Some maps_property
           /\ MapsProperty.channels maps_property = Some channels
           /\ match channel with
              | Some c => c = "" \/ lower c ∉ channels
              | None => True
              end.
Proof.
  rewrite invalid_combination_kept_channel, lower_channel_cases.
  assert (forall channels : list string,
             (forall c, match channel with
                        | Some c0 => if decide (c0 = "") then None else Some (lower c0)
                        | None => None
                        end = Some c -> c ∉ channels)
             <-> match channel with
                 | Some c => c = "" \/ lower c ∉ channels
                 | None => True
                 end) as Hchannel.
  { intros channels. destruct channel as [c0|]; [|done].
    destruct (decide (c0 = "")) as [->|Hne].
    - split; [by left|done].
    - split.
      + intros H. right. by apply H.
      + intros [?|H] c [= <-]; done. }
  split.
  - intros [?|(p & channels & Hp & Hc & H)]; [by left|].
    right. exists p, channels. split_and!; [done..|]. by apply Hchannel.
  - intros [?|(p & channels & Hp & Hc & H)]; [by left|].
    right. exists p, channels. split_and!; [done..|]. by apply Hchannel.
Qed.

(** C10.  The constructor lower-cases the property name and the channel
    before it looks anything up or loads anything: two calls whose
    names and channels differ in the case of letters only give the same
    result.  The object built holds the lower-cased name as
    [property_name], with no upper-case letter in it, and the entry that
    [maps.properties] has under that lower-cased name; its [channel] is
    the lower-cased channel, with no upper-case letter in it, and [None]
    when no channel or the empty string was given. *)
Theorem init_ignores_case (maps : Maps.t scalar) (name name' : string)
    (channel channel' : option string) :
  recased name name' ->
  option_Forall2 recased channel channel' ->
  Map_init maps name channel = Map_init maps name' channel'
  /\ forall m w,
       Map_init maps name channel = Ok (m, w) ->
       Map.property_name m = lower name
       /\ Map.property_name m = lower name'
       /\ islower (Map.property_name m) = true
       /\ Maps.properties maps (lower name) = Some (Map.maps_property m)
       /\ match channel with
          | Some c =>
            if decide (c = "") then Map.channel m = None
            else Map.channel m = Some (lower c) /\ islower (lower c) = true
          | None => Map.channel m = None
          end
       /\ match channel' with
          | Some c' => if decide (c' = "") then Map.channel m = None
                       else Map.channel m = Some (lower c')
          | None => Map.channel m = None
          end.
Proof.
  intros Hname Hchannel.
  assert (lower_channel channel = lower_channel channel') as Hlc.
  { destruct Hchannel as [c c' Hc|]; simpl; [|done].
    by rewrite (recased_truthy c c'), (recased_lower c c'). }
  split.
  - unfold MapTool.Map_init. by rewrite <-(recased_lower name name'), <-Hlc.
  - intros m w. unfold MapTool.Map_init. unfold_result. intros H.
    assert (Map.property_name m = lower name
            /\ Map.channel m = lower_channel channel
            /\ Maps.properties maps (lower name) = Some (Map.maps_property m))
      as (Hpn & Hch & Hp).
    { repeat (case_match; simplify_eq/=); try case_decide; simplify_eq/=;
        try done;
        match goal with
        | H : _load_map_from_file _ = Ok _ |- _ =>
          apply file_loaded in H as (? & ? & ? & ? & ? & ->); done
        | H : MapTool._load_map_from_db _ _ = Ok _ |- _ =>
          apply db_loaded in H as (? & ? & ? & ? & ? & ->); done
        | H : MapTool._load_map_from_api _ _ _ = Ok _ |- _ =>
          apply api_loaded in H as (? & ? & ? & ? & ? & ->); done
        end. }
    split_and!; [done|by rewrite <-(recased_lower name name')| |done| |].
    + rewrite Hpn. apply islower_lower.
    + rewrite Hch, lower_channel_cases. destruct channel as [c|]; [|done].
      destruct (decide (c = "")); [done|]. split; [done|apply islower_lower].
    + rewrite Hch, Hlc, lower_channel_cases. destruct channel' as [c'|]; [|done].
      by destruct (decide (c' = "")).
Qed.

(** C6.  In the remote loader, an exception of the request is raised
    again as a MarvinError whose message holds the message of that
    exception; an answer without data is raised as a MarvinError whose
    message holds the [error] string of the answer; and an answer with
    data fills [value], [ivar] and [mask] with the arrays of the
    payload, [unit] with its unit and [header] with its header. *)
Theorem api_loader_outcomes (self : Map.t scalar) :
  (forall ee,
      Interaction (url_full getmap_url self) (params self) = Raise ee ->
      _load_map_from_api self
      = Raise (Exn MarvinError
                   (Format "found a problem when getting the map: {0}" [exn_msg ee])))
  /\ (forall response error,
        Interaction (url_full getmap_url self) (params self) = Ok response ->
        getData response = None ->
        results response !! "error" = Some error ->
        _load_map_from_api self
        = Raise (Exn MarvinError
                     (Format "something went wrong. Error is: {0}" [Text error])))
  /\ (forall response data,
        Interaction (url_full getmap_url self) (params self) = Ok response ->
        getData response = Some data ->
        exists m,
          _load_map_from_api self = Ok m
          /\ Map.value m = Some (payload_value data)
          /\ Map.ivar m = Some (payload_ivar data)
          /\ Map.mask m = Some (payload_mask data)
          /\ Map.unit m = Some (payload_unit data)
          /\ Map.header m = Some (FitsHeader (payload_header data))).
Proof.
  unfold MapTool._load_map_from_api. split_and!.
  - by intros ee ->.
  - intros response error -> -> Herror. unfold dict_getitem. by rewrite Herror.
  - intros response data -> ->. eexists. split; [done|]. by split_and!.
Qed.

Lemma find_header_dict_None (p : MapsProperty.t) (hdus : list HDURow.t) :
  Forall (fun hdu => upper (MapsProperty.name p) <> upper (HDURow.extname_name hdu)) hdus ->
  find_header_dict p hdus = None.
Proof.
  intros Hnone. unfold find_header_dict.
  by rewrite (proj2 (list_find_None _ hdus)).
Qed.

(** C7.  For a map built from the database whose header rows hold no
    extension named like the property, whatever the case of letters:
    the constructor raises nothing but what the reading of the arrays
    raises, and when the arrays are read it returns the map with
    [header] left at [None] and the one warning
    [cannot find the header for property ...]. *)
Theorem missing_header_is_a_warning (maps : Maps.t scalar) (property_name : string)
    (channel : option string) (maps_property : MapsProperty.t)
    (spaxelprops spaxelprops5 : list (SpaxelProp.t scalar)) (hdus : list HDURow.t) :
  let self := Map.unloaded maps (lower property_name) (lower_channel channel)
                           maps_property in
  Maps.data_origin maps = "db" ->
  Maps.data maps = Maps.DBFile spaxelprops spaxelprops5 hdus ->
  Maps.properties maps (lower property_name) = Some maps_property ->
  (forall channels, MapsProperty.channels maps_property = Some channels ->
                    channel_not_in (lower_channel channel) channels = false) ->
  Forall (fun hdu => upper (MapsProperty.name maps_property)
                     <> upper (HDURow.extname_name hdu)) hdus ->
  (forall e, Map_init maps property_name channel = Raise e ->
             db_arrays StrictVersion self = Raise e)
  /\ (forall value ivar mask,
        db_arrays StrictVersion self = Ok (value, ivar, mask) ->
        Map_init maps property_name channel
        = Ok (Map.loaded self (Some value) ivar mask None None,
              [header_warning maps_property])).
Proof.
  intros self Horigin Hdata Hp Hchannels Hnone.
  assert (Map_init maps property_name channel = _load_map_from_db self) as ->.
  { unfold MapTool.Map_init. rewrite Hp.
    destruct (MapsProperty.channels maps_property) as [channels|] eqn:Hc.
    - rewrite (Hchannels channels) by done. rewrite Horigin.
      by rewrite decide_False, decide_True.
    - rewrite Horigin. by rewrite decide_False, decide_True. }
  unfold MapTool._load_map_from_db. unfold_result.
  destruct (db_arrays StrictVersion self) as [[[value ivar] mask]|e] eqn:Harrays.
  - subst self. simpl. rewrite Hdata. simpl.
    rewrite find_header_dict_None by done. simpl.
    split; [done|]. by intros ??? [= <- <- <-].
  - split; [by intros ? [= <-]|done].
Qed.
End facts.

Import Samples MoreSamples.

(** Without a channel and with a channel unknown to the list,
    [emline_gflux] is refused; with one of its channels in upper case it
    is not. *)
Lemma invalid_combination_iff_witness :
  Map_init parse_version server_ok url from_file "emline_gflux" None
  = Raise invalid_combination
  /\ Map_init parse_version server_ok url from_file "emline_gflux" (Some "oiii_5008")
     = Raise invalid_combination
  /\ Map_init parse_version server_ok url from_file "emline_gflux" (Some "HB_4862")
     <> Raise invalid_combination.
Proof.
  split_and!.
  - apply (invalid_combination_iff parse_version server_ok url from_file "emline_gflux" None).
    right. exists emline_gflux, ["ha_6564"; "hb_4862"]. by split_and!.
  - apply (invalid_combination_iff parse_version server_ok url from_file "emline_gflux"
             (Some "oiii_5008")).
    right. exists emline_gflux, ["ha_6564"; "hb_4862"]. split_and!; [done..|].
    right. compute_done.
  - intros H.
    apply (invalid_combination_iff parse_version server_ok url from_file "emline_gflux"
             (Some "HB_4862")) in H.
    destruct H as [H|(p & channels & Hp & Hc & [H|H])]; [done..|].
    injection Hp as <-. injection Hc as <-. apply H. compute_done.
Defined.

(** C5 fails on the code as it is worded, in both directions.  The
    channel [HB_4862] is not in the list of channels of [emline_gflux],
    and the constructor accepts it and loads the map of [hb_4862]; the
    channel [Ha_6564] is in the list of a registry that spells it so,
    and the constructor refuses it. *)
Lemma channel_tested_in_lower_case :
  (Samples.properties "emline_gflux" = Some emline_gflux
   /\ MapsProperty.channels emline_gflux = Some ["ha_6564"; "hb_4862"]
   /\ ("HB_4862" ∉ ["ha_6564"; "hb_4862"])
   /\ (Map.value ∘ fst <$> Map_init parse_version server_ok url from_file
                                    "emline_gflux" (Some "HB_4862"))
      = Ok (Some (array2 hb_plane)))
  /\ (properties_mixed "emline_gflux" = Some emline_mixed
      /\ MapsProperty.channels emline_mixed = Some ["Ha_6564"]
      /\ "Ha_6564" ∈ ["Ha_6564"]
      /\ Map_init parse_version server_ok url (with_properties properties_mixed from_file)
                  "emline_gflux" (Some "Ha_6564")
         = Raise invalid_combination).
Proof.
  split; split_and!; try (vm_compute; reflexivity); compute_done.
Qed.

(** The three spellings of one request on a file, and the map they
    build. *)
Lemma init_ignores_case_witness :
  Map_init parse_version server_ok url from_file "EMLINE_GFLUX" (Some "Hb_4862")
  = Map_init parse_version server_ok url from_file "emline_gflux" (Some "HB_4862")
  /\ exists m,
       Map_init parse_version server_ok url from_file "EMLINE_GFLUX" (Some "Hb_4862")
       = Ok (m, [])
       /\ Map.property_name m = "emline_gflux"
       /\ Map.channel m = Some "hb_4862"
       /\ Map.maps_property m = emline_gflux
       /\ Map.value m = Some (array2 hb_plane).
Proof.
  destruct (init_ignores_case parse_version server_ok url from_file
              "EMLINE_GFLUX" "emline_gflux" (Some "Hb_4862") (Some "HB_4862"))
    as [Hsame Hstored].
  - vm_compute. tauto.
  - constructor. vm_compute. tauto.
  - split; [exact Hsame|].
    destruct (Map_init parse_version server_ok url from_file "EMLINE_GFLUX" (Some "Hb_4862"))
      as [[m w]|e] eqn:Hinit; [|by vm_compute in Hinit].
    destruct (Hstored m w eq_refl) as (Hname & _ & _ & Hp & Hchannel & _).
    assert (w = [] /\ Map.value m = Some (array2 hb_plane)) as [-> Hvalue].
    { vm_compute in Hinit. by injection Hinit as <- <-. }
    exists m. split_and!; [done|exact Hname|apply Hchannel| |exact Hvalue].
    change (Some emline_gflux = Some (Map.maps_property m)) in Hp. by injection Hp.
Defined.

(** A server that cannot be reached, one that answers with an error, and
    one that answers with the map. *)
Lemma api_loader_outcomes_witness :
  let self := Map.unloaded from_api "emline_gflux" (Some "hb_4862") emline_gflux in
  _load_map_from_api server_down url self
  = Raise (Exn MarvinError
               (Format "found a problem when getting the map: {0}"
                       [Text "connection refused"]))
  /\ _load_map_from_api server_error url self
     = Raise (Exn MarvinError
                  (Format "something went wrong. Error is: {0}"
                          [Text "no map for this plateifu"]))
  /\ exists m, _load_map_from_api server_ok url self = Ok m
               /\ Map.value m = Some (array2 hb_plane).
Proof.
  intros self. split_and!.
  - apply (proj1 (api_loader_outcomes server_down url self)
                 (Exn (OtherError "ConnectionError") (Text "connection refused"))).
    reflexivity.
  - eapply (proj1 (proj2 (api_loader_outcomes server_error url self))); reflexivity.
  - destruct (proj2 (proj2 (api_loader_outcomes server_ok url self))
                    _ hb_payload eq_refl eq_refl) as (m & Hm & Hvalue & _).
    exists m. by split.
Defined.

(** The header rows of the sample database hold [PRIMARY] and
    [STELLAR_VEL], none for [emline_gflux]. *)
Lemma missing_header_is_a_warning_witness :
  exists m,
    Map_init parse_version server_ok url (from_db rows_shuffled) "emline_gflux" (Some "hb_4862")
    = Ok (m, [header_warning emline_gflux])
    /\ Map.header m = None
    /\ Map.value m = Some (array2 hb_plane).
Proof.
  eexists. split.
  - apply (proj2 (missing_header_is_a_warning parse_version server_ok url
             (from_db rows_shuffled) "emline_gflux" (Some "hb_4862") emline_gflux
             [] rows_shuffled header_rows
             eq_refl eq_refl eq_refl
             ltac:(by intros channels [= <-])
             ltac:(repeat constructor; vm_compute; discriminate))
           (array2 hb_plane) None None).
    vm_compute. reflexivity.
  - split; reflexivity.
Defined.

End MapInit.

(** ** The database loader: order of the rows *)

Module MapDb.
Import MapTool MapInit.

Lemma for_each_ext {A B} (f g : A -> result B) (l : list A) :
  (forall x, x ∈ l -> f x = g x) -> for_each f l = for_each g l.
Proof.
  induction l as [|x l IH]; intros Hfg; simpl; [done|].
  rewrite Hfg by apply list_elem_of_here.
  rewrite IH; [done|]. intros y Hy. apply Hfg. by apply list_elem_of_further.
Qed.

Lemma for_each_fmap {A B C} (f : B -> result C) (g : A -> B) (l : list A) :
  for_each f (g <$> l) = for_each (f ∘ g) l.
Proof. induction l as [|x l IH]; csimpl; [done|]. by rewrite IH. Qed.

Lemma for_each_lookup {A B} (f : A -> result B) (l : list A) (ys : list B) (i : nat) (x : A) :
  for_each f l = Ok ys -> l !! i = Some x -> exists y, ys !! i = Some y /\ f x = Ok y.
Proof.
  revert ys i. induction l as [|x' l IH]; intros ys i; simpl; [done|].
  destruct (f x') as [y'|] eqn:Hx'; simpl; [|done].
  destruct (for_each f l) as [ys'|] eqn:Hl; simpl; [|done].
  intros [= <-]. destruct i as [|i]; simpl.
  - intros [= <-]. eauto.
  - intros Hi. by apply (IH ys').
Qed.

Lemma for_each_length {A B} (f : A -> result B) (l : list A) (ys : list B) :
  for_each f l = Ok ys -> length ys = length l.
Proof.
  revert ys. induction l as [|x l IH]; intros ys; simpl; [by intros [= <-]|].
  destruct (f x) as [y|]; simpl; [|done].
  destruct (for_each f l) as [ys'|]; simpl; [|done].
  intros [= <-]. simpl. by rewrite (IH ys').
Qed.

Lemma chunks_length {A} (rows cols : nat) (l : list A) : length (chunks rows cols l) = rows.
Proof. revert l. induction rows as [|r IH]; intros l; simpl; [done|]. by rewrite IH. Qed.

Lemma chunks_rows {A} (rows cols : nat) (l : list A) :
  length l = (rows * cols)%nat -> Forall (fun row => length row = cols) (chunks rows cols l).
Proof.
  revert l. induction rows as [|r IH]; intros l Hlen; simpl; constructor.
  - rewrite length_take. lia.
  - apply IH. rewrite length_drop. lia.
Qed.

Lemma concat_chunks {A} (rows cols : nat) (l : list A) :
  length l = (rows * cols)%nat -> concat (chunks rows cols l) = l.
Proof.
  revert l. induction rows as [|r IH]; intros l Hlen; simpl.
  - symmetry. by apply nil_length_inv.
  - rewrite IH by (rewrite length_drop; lia). apply take_drop.
Qed.

Lemma for_each_Ok_Forall2 {A B} (f : A -> result B) (l : list A) (ys : list B) :
  for_each f l = Ok ys -> Forall2 (fun x y => f x = Ok y) l ys.
Proof.
  revert ys. induction l as [|x l IH]; intros ys; simpl.
  - intros [= <-]. constructor.
  - destruct (f x) as [y|] eqn:Hx; simpl; [|done].
    destruct (for_each f l) as [ys'|]; simpl; [|done].
    intros [= <-]. constructor; [done|]. by apply IH.
Qed.

(** When every failure of the body is the exception [e], a
    comprehension over a list with a failing element raises [e]. *)
Lemma for_each_Raise_same {A B} (f : A -> result B) (l : list A) (e : exn) (x : A) :
  (forall y e', f y = Raise e' -> e' = e) ->
  x ∈ l -> f x = Raise e -> for_each f l = Raise e.
Proof.
  intros Hsame. induction l as [|x' l IH]; intros Hin Hx; [by apply elem_of_nil in Hin|].
  simpl. destruct (f x') as [y'|e'] eqn:Hx'; simpl.
  - apply elem_of_cons in Hin as [->|Hin]; [congruence|].
    by rewrite IH.
  - by rewrite (Hsame x' e').
Qed.

Lemma zip_seq_lookup {A} (l : list A) (start : nat) (x : A) (i : nat) :
  (x, i) ∈ zip l (seq start (length l)) ->
  (start <= i)%nat /\ l !! (i - start)%nat = Some x.
Proof.
  revert start. induction l as [|y l IH]; intros start; simpl.
  - by intros ?%elem_of_nil.
  - intros [[= -> ->]|Hin]%elem_of_cons.
    + split; [lia|]. by rewrite Nat.sub_diag.
    + apply IH in Hin as [Hle Hi]. split; [lia|].
      by replace (i - start)%nat with (S (i - S start)) by lia.
Qed.

Lemma fmap_lookup_seq {A} (d : A) (l : list A) :
  (fun i => default d (l !! i)) <$> seq 0 (length l) = l.
Proof.
  apply list_eq. intros i. rewrite list_lookup_fmap.
  destruct (decide (i < length l)%nat) as [Hlt|Hge].
  - rewrite lookup_seq_lt by done. simpl.
    destruct (lookup_lt_is_Some_2 l i Hlt) as [x Hx]. by rewrite Hx.
  - rewrite lookup_seq_ge by lia. simpl. symmetry. apply lookup_ge_None. lia.
Qed.

(** Two sorted arrangements of rows with distinct keys are one. *)
Lemma fmap_NoDup_eq {A B} (f : A -> B) (l1 l2 : list A) :
  f <$> l1 = f <$> l2 -> l1 ≡ₚ l2 -> NoDup (f <$> l1) -> l1 = l2.
Proof.
  revert l2. induction l1 as [|a l1 IH]; intros [|b l2]; simpl; try done.
  intros [= Hab Hrest] Hperm [Hnotin Hnodup]%NoDup_cons.
  assert (a = b) as <-.
  { assert (a ∈ b :: l2) as [->|Hin]%elem_of_cons by (rewrite <-Hperm; left); [done|].
    exfalso. apply Hnotin. rewrite Hrest, Hab.
    assert (b ∈ a :: l1) as [->|Hin']%elem_of_cons by (rewrite Hperm; left).
    - by apply list_elem_of_fmap_2.
    - rewrite <-Hab, <-Hrest in *. exfalso. apply Hnotin.
      rewrite Hab. by apply list_elem_of_fmap_2. }
  f_equal. apply IH; [done| |done]. by eapply Permutation_cons_inv.
Qed.

Lemma Sorted_fmap_inv {A B} (f : A -> B) (R : relation B) (l : list A) :
  Sorted R (f <$> l) -> Sorted (fun x y => R (f x) (f y)) l.
Proof.
  induction l as [|x l IH]; csimpl; [constructor|].
  intros [Hsorted Hhd]%Sorted_inv. constructor; [by apply IH|].
  destruct l as [|y l]; csimpl in *; [constructor|].
  constructor. by apply HdRel_inv in Hhd.
Qed.

#[local] Instance key_le_total : Total key_le.
Proof. intros a b. unfold key_le. lia. Qed.

Lemma argsort_Permutation (keys : list Z) : argsort keys ≡ₚ seq 0 (length keys).
Proof.
  unfold argsort. rewrite merge_sort_Permutation.
  rewrite snd_zip; [done|]. by rewrite length_seq.
Qed.

Lemma argsort_lt (keys : list Z) (i : nat) : i ∈ argsort keys -> (i < length keys)%nat.
Proof. rewrite argsort_Permutation. intros ?%elem_of_seq. lia. Qed.

Lemma argsort_keys (keys : list Z) :
  (fun i => default 0 (keys !! i)) <$> argsort keys
  = fst <$> merge_sort key_le (zip keys (seq 0 (length keys))).
Proof.
  unfold argsort. rewrite <-list_fmap_compose.
  apply list_fmap_ext. intros j [k i] Hj. simpl.
  assert ((k, i) ∈ zip keys (seq 0 (length keys))) as Hin.
  { rewrite <-(merge_sort_Permutation key_le). by eapply list_elem_of_lookup_2. }
  apply zip_seq_lookup in Hin as [_ Hk]. rewrite Nat.sub_0_r in Hk. by rewrite Hk.
Qed.

Lemma argsort_Sorted (keys : list Z) :
  Sorted Z.le ((fun i => default 0 (keys !! i)) <$> argsort keys).
Proof.
  rewrite argsort_keys. eapply (Sorted_fmap fst key_le); [done|].
  apply (Sorted_merge_sort key_le).
Qed.

Section order.
Context {scalar : Type}.
Implicit Types spaxels : list (SpaxelProp.t scalar).

Lemma rows_in_order_Permutation spaxels : rows_in_order spaxels ≡ₚ spaxels.
Proof.
  unfold rows_in_order. rewrite argsort_Permutation, length_fmap.
  by rewrite fmap_lookup_seq.
Qed.

Lemma rows_in_order_index spaxels :
  SpaxelProp.spaxel_index <$> rows_in_order spaxels
  = (fun i => default 0 ((SpaxelProp.spaxel_index <$> spaxels) !! i))
      <$> argsort (SpaxelProp.spaxel_index <$> spaxels).
Proof.
  unfold rows_in_order. rewrite <-list_fmap_compose.
  apply list_fmap_ext. intros j i Hj. simpl.
  rewrite list_lookup_fmap. by destruct (spaxels !! i).
Qed.

Lemma rows_in_order_Sorted spaxels : Sorted by_spaxel_index (rows_in_order spaxels).
Proof.
  apply (Sorted_fmap_inv SpaxelProp.spaxel_index Z.le).
  rewrite rows_in_order_index. apply argsort_Sorted.
Qed.

Lemma getattr_Raise (spaxel : SpaxelProp.t scalar) (column : string) (e : exn) :
  SpaxelProp.getattr spaxel column = Raise e ->
  e = Exn AttributeError
          (Format "{!r} object has no attribute {!r}" [Repr "SpaxelProp"; Repr column]).
Proof. unfold SpaxelProp.getattr. by case_match; intros [= <-]. Qed.

(** The array of the code is the array of the specification, read off
    the rows in the order of [argsort]. *)
Lemma db_array_raster spaxels (column : string) (shape : nat * nat) :
  db_array spaxels (argsort (SpaxelProp.spaxel_index <$> spaxels)) column shape
  = raster_array (rows_in_order spaxels) column shape.
Proof.
  unfold db_array, raster_array, rows_in_order. rewrite for_each_fmap.
  set (order := argsort (SpaxelProp.spaxel_index <$> spaxels)).
  destruct (for_each _ spaxels) as [values|e] eqn:Hvalues; simpl.
  - assert (fancy_index values order
            = for_each ((fun spaxel => SpaxelProp.getattr spaxel column)
                          ∘ (fun i => default (SpaxelProp.Make 0 ∅) (spaxels !! i)))
                       order) as ->; [|done].
    unfold fancy_index. apply for_each_ext. intros i Hi%argsort_lt.
    rewrite length_fmap in Hi.
    destruct (lookup_lt_is_Some_2 spaxels i Hi) as [spaxel Hspaxel].
    destruct (for_each_lookup _ _ _ i spaxel Hvalues Hspaxel) as (y & Hy & Hget).
    rewrite Hy. simpl. by rewrite Hspaxel.
  - apply for_each_Raise in Hvalues as (spaxel & Hin & Hget).
    apply list_elem_of_lookup in Hin as [i Hi].
    rewrite (for_each_Raise_same _ order e i); [done| | |].
    + intros j e' Hj. simpl in Hj.
      apply getattr_Raise in Hj, Hget. congruence.
    + subst order. rewrite argsort_Permutation, length_fmap.
      apply elem_of_seq. apply lookup_lt_Some in Hi. lia.
    + simpl. by rewrite Hi.
Qed.

Lemma db_arrays_raster (self : Map.t scalar) spaxels :
  db_arrays_of self spaxels = arrays_in_raster_order self (rows_in_order spaxels).
Proof.
  unfold db_arrays_of, arrays_in_raster_order. by rewrite !db_array_raster.
Qed.

(** Rows with distinct indices have one sorted arrangement. *)
Lemma rows_in_order_unique spaxels spaxels' :
  spaxels' ≡ₚ spaxels ->
  NoDup (SpaxelProp.spaxel_index <$> spaxels) ->
  rows_in_order spaxels' = rows_in_order spaxels.
Proof.
  intros Hperm Hnodup.
  assert (rows_in_order spaxels' ≡ₚ rows_in_order spaxels) as Hrows.
  { by rewrite !rows_in_order_Permutation. }
  apply (fmap_NoDup_eq SpaxelProp.spaxel_index); [|done|].
  - apply (Sorted_unique Z.le).
    + rewrite rows_in_order_index. apply argsort_Sorted.
    + rewrite rows_in_order_index. apply argsort_Sorted.
    + by rewrite Hrows.
  - by rewrite Hrows, rows_in_order_Permutation.
Qed.

(** An array of the specification holds the column of its rows, line
    after line, in the shape asked for. *)
Lemma raster_array_column_grid spaxels (column : string) (shape : nat * nat)
    (a : ndarray scalar) :
  raster_array spaxels column shape = Ok a -> column_grid spaxels column shape (Some a).
Proof.
  unfold raster_array.
  destruct (for_each _ spaxels) as [values|] eqn:Hvalues; simpl; [|done].
  unfold reshape. case_decide as Hlen; [|done]. intros [= <-].
  exists (chunks shape.1 shape.2 values).
  split_and!; [done|apply chunks_length|by apply chunks_rows|].
  rewrite concat_chunks by done.
  apply for_each_Ok_Forall2 in Hvalues.
  eapply Forall2_impl; [exact Hvalues|]. intros spaxel x. unfold SpaxelProp.getattr.
  destruct (SpaxelProp.columns spaxel !! column); [|done]. by intros [= ->].
Qed.

Variable StrictVersion : string -> option strict_version.

(** The arrays of a loaded map are the arrays read from the rows. *)
Lemma db_loaded_arrays (self m : Map.t scalar) (w : list warning) :
  _load_map_from_db StrictVersion self = Ok (m, w) ->
  exists value,
    Map.value m = Some value
    /\ db_arrays StrictVersion self = Ok (value, Map.ivar m, Map.mask m).
Proof.
  unfold _load_map_from_db.
  destruct (db_arrays StrictVersion self) as [[[value ivar] mask]|]; simpl; [|done].
  destruct (db_hdus _) as [hdus|]; simpl; [|done].
  case_match; intros [= <- <-]; simpl; eauto.
Qed.

(** C2, as amended.  After [Map._load_map_from_db] the rows read,
    [spaxels], have an arrangement [sorted] in ascending order of
    [spaxel_index] such that [value] is the array of the shape of the
    map that holds, line after line, the column of the property in the
    rows of [sorted]; likewise [ivar] and [mask] with their columns when
    the property has them, and they are left as they were when it has
    not.  When the indices of the rows are pairwise distinct, the three
    arrays are the same for every order in which the rows come. *)
Theorem db_arrays_by_ascending_index (self : Map.t scalar) spaxels :
  db_spaxels StrictVersion self = Ok spaxels ->
  let maps_property := Map.maps_property self in
  let column := MapsProperty.fullname maps_property (Map.channel self) in
  (forall m w,
      _load_map_from_db StrictVersion self = Ok (m, w) ->
      exists sorted,
        sorted ≡ₚ spaxels
        /\ Sorted by_spaxel_index sorted
        /\ column_grid sorted (column None) (Map.shape self) (Map.value m)
        /\ (if MapsProperty.ivar maps_property
            then column_grid sorted (column (Some "ivar")) (Map.shape self) (Map.ivar m)
            else Map.ivar m = Map.ivar self)
        /\ (if MapsProperty.mask maps_property
            then column_grid sorted (column (Some "mask")) (Map.shape self) (Map.mask m)
            else Map.mask m = Map.mask self))
  /\ (forall (self' : Map.t scalar) spaxels',
        db_spaxels StrictVersion self' = Ok spaxels' ->
        spaxels' ≡ₚ spaxels ->
        NoDup (SpaxelProp.spaxel_index <$> spaxels) ->
        Map.maps_property self' = Map.maps_property self ->
        Map.channel self' = Map.channel self ->
        Map.shape self' = Map.shape self ->
        Map.ivar self' = Map.ivar self ->
        Map.mask self' = Map.mask self ->
        db_arrays StrictVersion self' = db_arrays StrictVersion self
        /\ forall m w m' w',
             _load_map_from_db StrictVersion self = Ok (m, w) ->
             _load_map_from_db StrictVersion self' = Ok (m', w') ->
             Map.value m' = Map.value m
             /\ Map.ivar m' = Map.ivar m
             /\ Map.mask m' = Map.mask m).
Proof.
  intros Hspaxels maps_property column.
  assert (db_arrays StrictVersion self
          = arrays_in_raster_order self (rows_in_order spaxels)) as Harrays.
  { unfold db_arrays. rewrite Hspaxels. simpl. apply db_arrays_raster. }
  split.
  - intros m w Hload. exists (rows_in_order spaxels).
    split; [apply rows_in_order_Permutation|].
    split; [apply rows_in_order_Sorted|].
    destruct (db_loaded_arrays self m w Hload) as (value & Hvalue & Hread).
    rewrite Harrays in Hread. unfold arrays_in_raster_order in Hread.
    fold maps_property in Hread. fold column in Hread.
    destruct (raster_array _ (column None) _) as [value0|] eqn:Hv; simpl in Hread; [|done].
    apply raster_array_column_grid in Hv.
    destruct (MapsProperty.ivar maps_property), (MapsProperty.mask maps_property);
      simpl in Hread.
    + destruct (raster_array _ (column (Some "ivar")) _) as [ivar0|] eqn:Hi;
        simpl in Hread; [|done].
      destruct (raster_array _ (column (Some "mask")) _) as [mask0|] eqn:Hm;
        simpl in Hread; [|done].
      apply raster_array_column_grid in Hi, Hm.
      injection Hread as <- <- <-. by rewrite Hvalue.
    + destruct (raster_array _ (column (Some "ivar")) _) as [ivar0|] eqn:Hi;
        simpl in Hread; [|done].
      apply raster_array_column_grid in Hi.
      injection Hread as <- <- <-. by rewrite Hvalue.
    + destruct (raster_array _ (column (Some "mask")) _) as [mask0|] eqn:Hm;
        simpl in Hread; [|done].
      apply raster_array_column_grid in Hm.
      injection Hread as <- <- <-. by rewrite Hvalue.
    + injection Hread as <- <- <-. by rewrite Hvalue.
  - intros self' spaxels' Hspaxels' Hperm Hnodup Hp Hc Hs Hi Hm.
    assert (db_arrays StrictVersion self' = db_arrays StrictVersion self) as Hsame.
    { rewrite Harrays. unfold db_arrays. rewrite Hspaxels'. simpl.
      rewrite db_arrays_raster, (rows_in_order_unique spaxels spaxels') by done.
      unfold arrays_in_raster_order. by rewrite Hp, Hc, Hs, Hi, Hm. }
    split; [done|]. intros m w m' w' Hload Hload'.
    destruct (db_loaded_arrays self m w Hload) as (value & Hvalue & Hread).
    destruct (db_loaded_arrays self' m' w' Hload') as (value' & Hvalue' & Hread').
    rewrite Hsame, Hread in Hread'. injection Hread' as <- <- <-.
    by rewrite Hvalue, Hvalue'.
Qed.
End order.

Import Samples MoreSamples.

(** The sample rows of [stellar_vel], shuffled: the arrays hold the
    columns [stellar_vel], [stellar_vel_ivar] and [stellar_vel_mask] by
    ascending index, and are those of the rows in raster order. *)
Lemma db_arrays_by_ascending_index_witness :
  let self rows := Map.unloaded (from_db rows) "stellar_vel" None stellar_vel in
  let m := Map.loaded (self rows_shuffled)
                      (Some (array2 [[10; 20]; [30; 40]]))
                      (Some (array2 [[100; 200]; [300; 400]]))
                      (Some (array2 [[0; 0]; [1; 1]]))
                      (Some (FitsHeader {[ "BUNIT" := "km/s" ]})) None in
  _load_map_from_db parse_version (self rows_shuffled) = Ok (m, [])
  /\ (exists sorted,
        sorted ≡ₚ rows_shuffled
        /\ Sorted by_spaxel_index sorted
        /\ column_grid sorted "stellar_vel" (2, 2)%nat
                       (Some (array2 [[10; 20]; [30; 40]]))
        /\ column_grid sorted "stellar_vel_ivar" (2, 2)%nat
                       (Some (array2 [[100; 200]; [300; 400]]))
        /\ column_grid sorted "stellar_vel_mask" (2, 2)%nat
                       (Some (array2 [[0; 0]; [1; 1]])))
  /\ db_arrays parse_version (self rows_raster) = db_arrays parse_version (self rows_shuffled).
Proof.
  intros self m.
  assert (_load_map_from_db parse_version (self rows_shuffled) = Ok (m, [])) as Hload
    by (vm_compute; reflexivity).
  destruct (db_arrays_by_ascending_index parse_version (self rows_shuffled) rows_shuffled)
    as [Hsorted Horder]; [vm_compute; reflexivity|].
  split_and!.
  - exact Hload.
  - exact (Hsorted m [] Hload).
  - apply (Horder (self rows_raster) rows_raster); try reflexivity.
    + unfold rows_raster, rows_shuffled.
      etrans; [apply perm_skip, perm_swap|].
      etrans; [apply perm_swap|].
      do 2 apply perm_skip. apply perm_swap.
    + compute_done.
Defined.

(** C2 fails on the code.  Two rows under the index 0 reach the loader
    in one order and in the other: the rows are the same, both
    arrangements are in ascending order of the index, and the arrays
    differ. *)
Lemma tied_rows_follow_arrival_order :
  rows_tied_swapped ≡ₚ rows_tied
  /\ (Map.value ∘ fst <$> Map_init parse_version server_ok url (from_db_strip rows_tied)
                                   "stellar_vel" None)
     = Ok (Some (array2 [[10; 20]]))
  /\ (Map.value ∘ fst <$> Map_init parse_version server_ok url (from_db_strip rows_tied_swapped)
                                   "stellar_vel" None)
     = Ok (Some (array2 [[20; 10]])).
Proof. split_and!; [apply perm_swap|vm_compute; reflexivity..]. Qed.

(** *** The three loaders on one channel *)

Lemma for_each_Forall2 {A B} (f : A -> result B) (l : list A) (ys : list B) :
  Forall2 (fun x y => f x = Ok y) l ys -> for_each f l = Ok ys.
Proof.
  induction 1 as [|x y l ys Hx _ IH]; simpl; [done|]. by rewrite Hx, IH.
Qed.

Lemma Sorted_seqZ (start n : nat) : Sorted Z.le (Z.of_nat <$> seq start n).
Proof.
  revert start. induction n as [|n IH]; intros start; csimpl; [constructor|].
  constructor; [apply IH|]. destruct n; csimpl; constructor. lia.
Qed.

Lemma chunks_concat {A} (grid : list (list A)) (cols : nat) :
  Forall (fun row => length row = cols) grid ->
  chunks (length grid) cols (concat grid) = grid.
Proof.
  induction 1 as [|row grid Hrow _ IH]; simpl; [done|].
  by rewrite take_app_length', drop_app_length', IH.
Qed.

Lemma reshape_concat {scalar} (grid : list (list scalar)) (shape : nat * nat) :
  length grid = shape.1 ->
  Forall (fun row => length row = shape.2) grid ->
  reshape (concat grid) shape = Ok (array2 grid).
Proof.
  intros Hrows Hcols. unfold reshape.
  assert (length (concat grid) = (shape.1 * shape.2)%nat) as Hlen.
  { rewrite <-Hrows. clear Hrows.
    induction Hcols as [|row grid Hrow _ IH]; simpl; [done|].
    rewrite length_app, IH, Hrow. lia. }
  rewrite decide_True by done. by rewrite <-Hrows, chunks_concat.
Qed.

Section channel.
Context {scalar : Type}.
Variable StrictVersion : string -> option strict_version.
Variable Interaction : message -> list (string * string) -> result (Response scalar).
Variable getmap_url : string.

(** The file loader takes the sub-array at the position of the channel
    in the list of channels. *)
Lemma file_value_by_position (self m : Map.t scalar) (channel : string)
    (channels : list string) (k : nat) (hdu_by_name : string -> option (ImageHDU.t scalar))
    (hdu : ImageHDU.t scalar) (planes : list (ndarray scalar)) :
  Map.channel self = Some channel ->
  MapsProperty.channels (Map.maps_property self) = Some channels ->
  index channel channels = Some k ->
  Maps.data (Map.maps self) = Maps.HDUList hdu_by_name ->
  hdu_by_name (Map.property_name self) = Some hdu ->
  ImageHDU.data hdu = Array planes ->
  _load_map_from_file self = Ok m ->
  Map.value m = planes !! k.
Proof.
  intros Hchannel Hchannels Hk Hdata Hhdu Hplanes.
  unfold _load_map_from_file, channels_index.
  rewrite Hchannel, Hchannels, Hk, Hdata. simpl. rewrite Hhdu. simpl.
  rewrite Hplanes. simpl.
  destruct (planes !! k) as [plane|]; simpl; [|done].
  intros H. unfold mbind, result_bind, fmap, result_fmap in H.
  repeat (case_match; simplify_eq/=); done.
Qed.

(** The database loader reads the column that [fullname] names for the
    channel; on rows that spell out [grid] in raster order it gives
    [grid]. *)
Lemma db_value_by_column (self : Map.t scalar) (spaxels : list (SpaxelProp.t scalar))
    (grid : list (list scalar)) :
  length grid = (Map.shape self).1 ->
  Forall (fun row => length row = (Map.shape self).2) grid ->
  SpaxelProp.spaxel_index <$> spaxels ≡ₚ Z.of_nat <$> seq 0 (length (concat grid)) ->
  (forall spaxel i x,
      spaxel ∈ spaxels ->
      SpaxelProp.spaxel_index spaxel = Z.of_nat i ->
      concat grid !! i = Some x ->
      SpaxelProp.columns spaxel
        !! MapsProperty.fullname (Map.maps_property self) (Map.channel self) None = Some x) ->
  db_array spaxels (argsort (SpaxelProp.spaxel_index <$> spaxels))
           (MapsProperty.fullname (Map.maps_property self) (Map.channel self) None)
           (Map.shape self)
  = Ok (array2 grid).
Proof.
  intros Hrows Hcols Hindex Hcolumn.
  rewrite db_array_raster. unfold raster_array.
  set (sorted := rows_in_order spaxels).
  assert (SpaxelProp.spaxel_index <$> sorted
          = Z.of_nat <$> seq 0 (length (concat grid))) as Hsorted.
  { apply (Sorted_unique Z.le).
    - subst sorted. rewrite rows_in_order_index. apply argsort_Sorted.
    - apply Sorted_seqZ.
    - subst sorted. by rewrite rows_in_order_Permutation. }
  rewrite (for_each_Forall2 _ sorted (concat grid)).
  { simpl. by apply reshape_concat. }
  apply Forall2_same_length_lookup_2.
  - rewrite <-(length_fmap SpaxelProp.spaxel_index sorted), Hsorted.
    by rewrite length_fmap, length_seq.
  - intros i spaxel x Hspaxel Hx. unfold SpaxelProp.getattr.
    rewrite (Hcolumn spaxel i x); [done| | |done].
    + rewrite <-(rows_in_order_Permutation spaxels).
      by eapply list_elem_of_lookup_2.
    + assert ((SpaxelProp.spaxel_index <$> sorted) !! i
              = Some (SpaxelProp.spaxel_index spaxel)) as Hi.
      { by rewrite list_lookup_fmap, Hspaxel. }
      rewrite Hsorted, list_lookup_fmap in Hi.
      apply lookup_lt_Some in Hx.
      rewrite lookup_seq_lt in Hi by done. simpl in Hi. by injection Hi as <-.
Qed.

(** C4, as amended.  For a property with channels and one of its
    channels, at position [k] of the list: the file loader takes the
    sub-array number [k] of the stored data; the database loader reads
    the column that [fullname] names for the channel, in the order of
    [spaxel_index], reshaped; the remote loader takes the [value] of the
    payload as it is.  When the file holds [grid] at position [k], the
    rows of the database spell [grid] out in that column, one row per
    index, and the payload holds [grid], each loader that completes
    yields [grid]. *)
Theorem loaders_select_same_channel
    (maps_property : MapsProperty.t) (channels : list string) (channel : string)
    (k : nat) (grid : list (list scalar))
    (file_self db_self api_self : Map.t scalar)
    (hdu_by_name : string -> option (ImageHDU.t scalar)) (hdu : ImageHDU.t scalar)
    (planes : list (ndarray scalar))
    (spaxels : list (SpaxelProp.t scalar))
    (response : Response scalar) (data : payload scalar) :
  MapsProperty.channels maps_property = Some channels ->
  index channel channels = Some k ->
  Forall (fun self => Map.maps_property self = maps_property
                      /\ Map.channel self = Some channel)
         [file_self; db_self; api_self] ->
  Maps.data (Map.maps file_self) = Maps.HDUList hdu_by_name ->
  hdu_by_name (Map.property_name file_self) = Some hdu ->
  ImageHDU.data hdu = Array planes ->
  planes !! k = Some (array2 grid) ->
  db_spaxels StrictVersion db_self = Ok spaxels ->
  length grid = (Map.shape db_self).1 ->
  Forall (fun row => length row = (Map.shape db_self).2) grid ->
  SpaxelProp.spaxel_index <$> spaxels ≡ₚ Z.of_nat <$> seq 0 (length (concat grid)) ->
  (forall spaxel i x,
      spaxel ∈ spaxels ->
      SpaxelProp.spaxel_index spaxel = Z.of_nat i ->
      concat grid !! i = Some x ->
      SpaxelProp.columns spaxel
        !! MapsProperty.fullname maps_property (Some channel) None = Some x) ->
  Interaction (url_full getmap_url api_self) (params api_self) = Ok response ->
  getData response = Some data ->
  payload_value data = array2 grid ->
  (forall m, _load_map_from_file file_self = Ok m -> Map.value m = Some (array2 grid))
  /\ (forall m w, _load_map_from_db StrictVersion db_self = Ok (m, w) ->
                  Map.value m = Some (array2 grid))
  /\ (forall m, _load_map_from_api Interaction getmap_url api_self = Ok m ->
                Map.value m = Some (array2 grid)).
Proof.
  intros Hchannels Hk Hselves Hdata Hhdu Hplanes Hplane Hspaxels Hrows Hcols
         Hindex Hcolumn Hresponse Hdata' Hvalue.
  apply Forall_cons in Hselves as [[Hfp Hfc] Hselves].
  apply Forall_cons in Hselves as [[Hdp Hdc] Hselves].
  apply Forall_cons in Hselves as [[Hap Hac] _].
  split_and!.
  - intros m Hm. rewrite <-Hplane.
    apply (file_value_by_position file_self m channel channels k hdu_by_name hdu planes);
      [done|by rewrite Hfp|done..].
  - intros m w. unfold _load_map_from_db, db_arrays. rewrite Hspaxels. simpl.
    unfold db_arrays_of.
    rewrite (db_value_by_column db_self spaxels grid); [|done..|].
    2: { by rewrite Hdp, Hdc. }
    simpl. intros H. unfold mbind, result_bind, fmap, result_fmap in H.
    repeat (case_match; simplify_eq/=); done.
  - intros m. unfold _load_map_from_api. rewrite Hresponse, Hdata'.
    intros [= <-]. simpl. by rewrite Hvalue.
Qed.
End channel.

(** The sample file, database and server hold the same [hb] plane; the
    three loaders complete and return it. *)
Lemma loaders_select_same_channel_witness :
  let self maps := Map.unloaded maps "emline_gflux" (Some "hb_4862") emline_gflux in
  (Map.value <$> _load_map_from_file (self from_file)) = Ok (Some (array2 hb_plane))
  /\ (Map.value ∘ fst <$> _load_map_from_db parse_version (self (from_db rows_shuffled)))
     = Ok (Some (array2 hb_plane))
  /\ (Map.value <$> _load_map_from_api server_ok url (self from_api))
     = Ok (Some (array2 hb_plane)).
Proof.
  intros self.
  destruct (loaders_select_same_channel parse_version server_ok url
              emline_gflux ["ha_6564"; "hb_4862"] "hb_4862" 1%nat hb_plane
              (self from_file) (self (from_db rows_shuffled)) (self from_api)
              (fun ext => if decide (ext = "emline_gflux") then Some maps_file else None)
              maps_file [array2 ha_plane; array2 hb_plane]
              rows_shuffled
              {| getData := Some hb_payload; results := {[ "status" := "1" ]} |}
              hb_payload)
    as (Hfile & Hdb & Hapi).
  - reflexivity.
  - reflexivity.
  - repeat constructor.
  - reflexivity.
  - reflexivity.
  - reflexivity.
  - reflexivity.
  - vm_compute. reflexivity.
  - reflexivity.
  - repeat constructor.
  - vm_compute. etrans; [apply perm_swap|]. apply perm_skip.
    etrans; [apply perm_skip, perm_swap|]. apply perm_swap.
  - intros spaxel i x Hin Hi Hx.
    assert (i < 4)%nat as Hlt by (apply lookup_lt_Some in Hx; simpl in Hx; lia).
    unfold rows_shuffled in Hin. set_unfold in Hin.
    destruct Hin as [->|[->|[->|[->|[]]]]]; simpl in Hi;
      (assert (i = 0 \/ i = 1 \/ i = 2 \/ i = 3)%nat as Hcase by lia;
       destruct Hcase as [->|[->|[->| ->]]]; try lia;
       simpl in Hx; injection Hx as <-; vm_compute; reflexivity).
  - reflexivity.
  - reflexivity.
  - reflexivity.
  - split_and!.
    + destruct (_load_map_from_file (self from_file)) as [m|e] eqn:Hm;
        [simpl; f_equal; by apply Hfile | by vm_compute in Hm].
    + destruct (_load_map_from_db parse_version (self (from_db rows_shuffled)))
        as [[m w]|e] eqn:Hm;
        [simpl; f_equal; by eapply Hdb | by vm_compute in Hm].
    + destruct (_load_map_from_api server_ok url (self from_api)) as [m|e] eqn:Hm;
        [simpl; f_equal; by apply Hapi | by vm_compute in Hm].
Defined.

(** C4 fails on the code: the database loader does not look at the
    position of the channel in the list of channels.  Over the sample
    file, database and server, which hold the same planes, a registry
    lists the channels of [emline_gflux] as [hb_4862], [ha_6564].  For
    [hb_4862], at position 0, the file loader returns the plane stored
    first, which is the [ha] plane; the database loader reads the column
    [emline_gflux_hb_4862] and returns the [hb] plane, as the server
    does. *)
Lemma db_loader_ignores_channel_position :
  MapsProperty.channels emline_reversed = Some ["hb_4862"; "ha_6564"]
  /\ index "hb_4862" ["hb_4862"; "ha_6564"] = Some 0%nat
  /\ (Map.value ∘ fst <$> Map_init parse_version server_ok url
                                   (with_properties properties_reversed from_file)
                                   "emline_gflux" (Some "hb_4862"))
     = Ok (Some (array2 ha_plane))
  /\ (Map.value ∘ fst <$> Map_init parse_version server_ok url
                                   (with_properties properties_reversed (from_db rows_raster))
                                   "emline_gflux" (Some "hb_4862"))
     = Ok (Some (array2 hb_plane))
  /\ (Map.value ∘ fst <$> Map_init parse_version server_ok url
                                   (with_properties properties_reversed from_api)
                                   "emline_gflux" (Some "hb_4862"))
     = Ok (Some (array2 hb_plane)).
Proof. split_and!; vm_compute; reflexivity. Qed.

End MapDb.

(** ** More on the lookup of the datamodel *)

Module DrpMore.
Import Drp Methods Samples MoreSamples.

Section facts.
Variable fuzzy : forall A : Type, (A -> string) -> list A -> string -> result A.

Lemma index_Some {A} `{EqDecision A} (l : list A) (v : A) :
  v ∈ l -> exists i, index v l = Some i /\ l !! i = Some v.
Proof.
  intros Hin. unfold index.
  destruct (list_find (fun x => x = v) l) as [[i x]|] eqn:Hfind.
  - apply list_find_Some in Hfind as (Hi & -> & _). simpl. eauto.
  - apply list_find_None in Hfind. rewrite Forall_forall in Hfind.
    by destruct (Hfind v Hin).
Qed.

(** X1.  A query that is the name of a datacube is answered by a
    datacube of the registry bearing that name, whatever the spectra
    hold and whatever the fuzzy list would say; a query that is the name
    of no datacube and of a spectrum is answered by a spectrum of the
    registry bearing that name. *)
Theorem exact_name_resolves (self : DRPDataModel) (value : string) :
  (value ∈ DataCube.name <$> datacubes self ->
   exists d, d ∈ datacubes self /\ DataCube.name d = value
             /\ DRPDataModel_eq fuzzy self value = Ok (IsDataCube d))
  /\ (value ∉ DataCube.name <$> datacubes self ->
      value ∈ Spectrum.name <$> spectra self ->
      exists s, s ∈ spectra self /\ Spectrum.name s = value
                /\ DRPDataModel_eq fuzzy self value = Ok (IsSpectrum s)).
Proof.
  split.
  - intros Hin. unfold DRPDataModel_eq. rewrite bool_decide_eq_true_2 by done.
    destruct (index_Some _ _ Hin) as (i & -> & Hi). simpl.
    rewrite list_lookup_fmap in Hi.
    destruct (datacubes self !! i) as [d|] eqn:Hd; [|done].
    injection Hi as Hname. exists d. split_and!; [|done..].
    by eapply list_elem_of_lookup_2.
  - intros Hnot Hin. unfold DRPDataModel_eq.
    rewrite bool_decide_eq_false_2, bool_decide_eq_true_2 by done.
    destruct (index_Some _ _ Hin) as (i & -> & Hi). simpl.
    rewrite list_lookup_fmap in Hi.
    destruct (spectra self !! i) as [s|] eqn:Hs; [|done].
    injection Hi as Hname. exists s. split_and!; [|done..].
    by eapply list_elem_of_lookup_2.
Qed.

(** X2.  [value in datamodel] is [True] exactly when the lookup returns
    an entry and [False] exactly when the lookup raises a ValueError; an
    exception of another class raised by the fuzzy list comes out of
    [__contains__] as it is. *)
Theorem contains_follows_eq (self : DRPDataModel) (value : string) :
  (DRPDataModel_contains fuzzy self value = Ok true
   <-> exists e, DRPDataModel_eq fuzzy self value = Ok e)
  /\ (DRPDataModel_contains fuzzy self value = Ok false
      <-> raises (DRPDataModel_eq fuzzy self value) ValueError)
  /\ (forall e, DRPDataModel_contains fuzzy self value = Raise e
                <-> DRPDataModel_eq fuzzy self value = Raise e /\ exn_cls e <> ValueError).
Proof.
  unfold DRPDataModel_contains, try_except.
  destruct (DRPDataModel_eq fuzzy self value) as [entry|e] eqn:Heq; simpl.
  - split_and!; [split; eauto|split; done|]. intros e. split; [done|]. by intros [? _].
  - destruct (decide (exn_cls e = ValueError)) as [Hcls|Hcls].
    + split_and!.
      * split; [done|]. by intros [? ?].
      * done.
      * intros e'. split; [done|]. intros [[= <-] ?]. done.
    + split_and!.
      * split; [done|]. by intros [? ?].
      * split; done.
      * intros e'. split; [by intros [= <-]|by intros [[= <-] _]].
Qed.

(** X3.  Every name of a datacube and every name of a spectrum of the
    registry is [in] the datamodel. *)
Theorem contains_registered_names (self : DRPDataModel) (value : string) :
  value ∈ ((DataCube.name <$> datacubes self) ++ (Spectrum.name <$> spectra self))%list ->
  DRPDataModel_contains fuzzy self value = Ok true.
Proof.
  intros Hin. apply contains_follows_eq.
  destruct (decide (value ∈ DataCube.name <$> datacubes self)) as [Hd|Hd].
  - destruct (proj1 (exact_name_resolves self value) Hd) as (d & _ & _ & ->). eauto.
  - apply elem_of_app in Hin as [Hin|Hin]; [done|].
    destruct (proj2 (exact_name_resolves self value) Hd Hin) as (s & _ & _ & ->). eauto.
Qed.
End facts.

Lemma exact_name_resolves_witness :
  (exists d, d ∈ datacubes mpl6 /\ DataCube.name d = "dispersion"
             /\ DRPDataModel_eq Samples.fuzzy mpl6 "dispersion" = Ok (IsDataCube d))
  /\ (exists s, s ∈ spectra mpl6 /\ Spectrum.name s = "spectral_resolution"
                /\ DRPDataModel_eq Samples.fuzzy mpl6 "spectral_resolution" = Ok (IsSpectrum s)).
Proof.
  split.
  - apply (proj1 (exact_name_resolves Samples.fuzzy mpl6 "dispersion")). compute_done.
  - apply (proj2 (exact_name_resolves Samples.fuzzy mpl6 "spectral_resolution"));
      compute_done.
Defined.

Lemma contains_registered_names_witness :
  DRPDataModel_contains Samples.fuzzy mpl6 "spectral_resolution" = Ok true.
Proof.
  apply (contains_registered_names Samples.fuzzy mpl6 "spectral_resolution"). compute_done.
Defined.

End DrpMore.

(** ** More on the lists of the datamodel *)

Module DrpLists.
Import Drp Methods Samples MoreSamples DrpAppend.


(** X5.  With [copy=False] the list holds the object of the caller
    itself: no object is made, the reference appended is the one handed
    in, and the parent is written on the caller's object. *)
Theorem append_no_copy_aliases (self : FuzzyListObj) (l : loc) (d : DataCube.t)
    (h : gmap loc instance) :
  h !! l = Some (InstDataCube d) ->
  DataCubeList_append self (VRef l) false h
  = {| raised := None;
       heap_after := <[l := InstDataCube (DataCube.set_parent_attr (list_parent self) d)]> h;
       list_after := push self l |}.
Proof.
  intros Hl. unfold DataCubeList_append, setattr_parent. rewrite Hl.
  unfold isinstance_DataCube. by rewrite lookup_insert_eq.
Qed.

(** X6.  With [copy=False] an object of another class is refused with a
    ValueError and the list is unchanged, but the parent of the object has
    been overwritten by then. *)
Theorem append_no_copy_marks_rejected (self : FuzzyListObj) (l : loc) (s : Spectrum.t)
    (h : gmap loc instance) :
  h !! l = Some (InstSpectrum s) ->
  let o := DataCubeList_append self (VRef l) false h in
  raised o = Some (Exn ValueError
                       (Format "invalid datacube of type {!r}" [ReprType "Spectrum"]))
  /\ list_after o = self
  /\ heap_after o !! l = Some (InstSpectrum (Spectrum.set_parent_attr (list_parent self) s)).
Proof.
  intros Hl o. subst o. unfold DataCubeList_append, setattr_parent. rewrite Hl.
  unfold isinstance_DataCube, type_name. rewrite !lookup_insert_eq. simpl.
  by rewrite lookup_insert_eq.
Qed.

(** The copies that the loop of [__init__] stores. *)
Lemma extend_copies (self : FuzzyListObj) (the_list : list pyval) (h : gmap loc instance) :
  Forall (fun v => exists l d, v = VRef l /\ h !! l = Some (InstDataCube d)) the_list ->
  let o := DataCubeList_extend self the_list h in
  raised o = None
  /\ list_parent (list_after o) = list_parent self
  /\ (forall l, l ∈ dom h -> heap_after o !! l = h !! l)
  /\ exists new,
      list_items (list_after o) = (list_items self ++ new)%list
      /\ NoDup new
      /\ Forall (fun l' => l' ∉ dom h) new
      /\ Forall2 (fun v l' =>
                    forall l d, v = VRef l -> h !! l = Some (InstDataCube d) ->
                      heap_after o !! l'
                      = Some (InstDataCube (DataCube.set_parent_attr (list_parent self) d)))
                 the_list new.
Proof.
  revert self h. induction the_list as [|v rest IH]; intros self h Hvalid; simpl.
  { split_and!; [done..|]. exists []. rewrite app_nil_r.
    split_and!; [done|constructor|constructor|constructor]. }
  apply Forall_cons in Hvalid as [(l & d & -> & Hl) Hrest].
  rewrite (append_copy_datacube self l d h Hl). simpl.
  set (f := fresh (dom h)).
  set (h1 := <[f := InstDataCube (DataCube.set_parent_attr (list_parent self) d)]> h).
  pose proof (is_fresh (dom h)) as Hfresh. fold f in Hfresh.
  assert (forall l0, l0 ∈ dom h -> h1 !! l0 = h !! l0) as Hframe1.
  { intros l0 Hl0. unfold h1. rewrite lookup_insert_ne; [done|]. by intros <-. }
  assert (dom h1 = {[f]} ∪ dom h) as Hdom by (unfold h1; by rewrite dom_insert_L).
  destruct (IH (push self f) h1) as (Hraised & Hparent & Hframe & new' & Hitems & Hnodup & Hnew & Hall).
  { eapply Forall_impl; [exact Hrest|]. intros v (l0 & d0 & -> & Hl0).
    exists l0, d0. split; [done|]. rewrite Hframe1; [done|]. apply elem_of_dom. by eexists. }
  split_and!; [done|done| |].
  - intros l0 Hl0. rewrite Hframe by (rewrite Hdom; apply elem_of_union; by right).
    by apply Hframe1.
  - exists (f :: new'). split_and!.
    + rewrite Hitems. simpl. by rewrite <-app_assoc.
    + apply NoDup_cons. split; [|done]. intros Hin.
      rewrite Forall_forall in Hnew. apply (Hnew f Hin). rewrite Hdom.
      apply elem_of_union. left. by apply elem_of_singleton.
    + apply Forall_cons. split; [done|].
      eapply Forall_impl; [exact Hnew|]. intros l' Hl' Hin. apply Hl'. rewrite Hdom.
      apply elem_of_union. by right.
    + constructor.
      * intros l0 d0 [= <-] Hl0. rewrite Hl in Hl0. injection Hl0 as <-.
        rewrite Hframe by (rewrite Hdom; apply elem_of_union; left; by apply elem_of_singleton).
        unfold h1. by rewrite lookup_insert_eq.
      * eapply Forall2_impl; [exact Hall|]. intros v l' Hv l0 d0 -> Hl0.
        apply (Hv l0 d0); [done|]. rewrite Hframe1; [done|]. apply elem_of_dom. by eexists.
Qed.

(** X7.  [DataCubeList(the_list, parent)] on datacubes: the list built
    has one new object for each item, in order and all distinct, each the
    datacube of the item with [parent] as its parent, and the objects
    handed in are unchanged. *)
Theorem init_copies_every_item (the_list : list pyval) (parent : option loc)
    (h : gmap loc instance) :
  Forall (fun v => exists l d, v = VRef l /\ h !! l = Some (InstDataCube d)) the_list ->
  let o := DataCubeList_init the_list parent h in
  raised o = None
  /\ list_parent (list_after o) = parent
  /\ (forall l, l ∈ dom h -> heap_after o !! l = h !! l)
  /\ NoDup (list_items (list_after o))
  /\ Forall (fun l' => l' ∉ dom h) (list_items (list_after o))
  /\ Forall2 (fun v l' =>
                forall l d, v = VRef l -> h !! l = Some (InstDataCube d) ->
                  heap_after o !! l' = Some (InstDataCube (DataCube.set_parent_attr parent d)))
             the_list (list_items (list_after o)).
Proof.
  intros Hvalid o. subst o. unfold DataCubeList_init.
  destruct (extend_copies {| list_parent := parent; list_items := [] |} the_list h Hvalid)
    as (Hraised & Hparent & Hframe & new & Hitems & Hnodup & Hnew & Hall).
  simpl in Hitems. rewrite Hitems. by split_and!.
Qed.

(** The loop over two lists in a row is the loop over the first and,
    if that raised nothing, the loop over the second. *)
Lemma extend_app (self : FuzzyListObj) (first second : list pyval) (h : gmap loc instance) :
  DataCubeList_extend self (first ++ second)%list h
  = let o := DataCubeList_extend self first h in
    match raised o with
    | Some _ => o
    | None => DataCubeList_extend (list_after o) second (heap_after o)
    end.
Proof.
  revert self h. induction first as [|v first IH]; intros self h; simpl; [done|].
  destruct (raised (DataCubeList_append self v true h)) eqn:Hraised; [by rewrite Hraised|].
  apply IH.
Qed.

(** X8.  The loop of [__init__] ends at the first item that is no
    instance: the exception is the AttributeError of [append], and the list
    holds the copies of the items before it, in order, and nothing more:
    one new object for each of them, the datacube of the item with the
    parent of the list as its parent.  The objects handed in are
    unchanged. *)
Theorem init_stops_at_first_atom (self : FuzzyListObj) (good rest : list pyval) (bad : pyval)
    (h : gmap loc instance) :
  Forall (fun v => exists l d, v = VRef l /\ h !! l = Some (InstDataCube d)) good ->
  (forall l, bad <> VRef l) ->
  let o := DataCubeList_extend self (good ++ bad :: rest)%list h in
  (exists e, raised o = Some e /\ exn_cls e = AttributeError)
  /\ length (list_items (list_after o)) = (length (list_items self) + length good)%nat
  /\ list_parent (list_after o) = list_parent self
  /\ (forall l, l ∈ dom h -> heap_after o !! l = h !! l)
  /\ exists new,
      list_items (list_after o) = (list_items self ++ new)%list
      /\ NoDup new
      /\ Forall (fun l' => l' ∉ dom h) new
      /\ Forall2 (fun v l' =>
                    forall l d, v = VRef l -> h !! l = Some (InstDataCube d) ->
                      heap_after o !! l'
                      = Some (InstDataCube (DataCube.set_parent_attr (list_parent self) d)))
                 good new.
Proof.
  intros Hvalid Hbad o. subst o. rewrite extend_app.
  destruct (extend_copies self good h Hvalid)
    as (Hraised & Hparent & Hframe & new & Hitems & Hnodup & Hnew & Hall).
  simpl. rewrite Hraised. simpl. rewrite (append_atom _ bad true _ Hbad). simpl.
  split_and!; [by eauto| |done|done|by exists new].
  rewrite Hitems, length_app. by rewrite (Forall2_length _ _ _ Hall).
Qed.

(** X9.  [SpectrumList.append] with [copy=True] stores a spectrum as a
    new object whose parent is the parent of the list, and refuses a
    datacube with a ValueError, the list unchanged. *)
Theorem spectrum_append (self : FuzzyListObj) (l : loc) (h : gmap loc instance) :
  (forall s, h !! l = Some (InstSpectrum s) ->
     SpectrumList_append self (VRef l) true h
     = {| raised := None;
          heap_after :=
            <[fresh (dom h) := InstSpectrum (Spectrum.set_parent_attr (list_parent self) s)]> h;
          list_after := push self (fresh (dom h)) |})
  /\ (forall d, h !! l = Some (InstDataCube d) ->
        let o := SpectrumList_append self (VRef l) true h in
        raised o = Some (Exn ValueError
                             (Format "invalid spectrum of type {!r}" [ReprType "DataCube"]))
        /\ list_after o = self).
Proof.
  split.
  - intros s Hl. unfold SpectrumList_append, deepcopy. rewrite Hl.
    unfold setattr_parent. rewrite lookup_insert_eq.
    unfold isinstance_Spectrum. rewrite lookup_insert_eq. simpl.
    by rewrite insert_insert_eq.
  - intros d Hl o. subst o. unfold SpectrumList_append, deepcopy. rewrite Hl.
    unfold setattr_parent. rewrite lookup_insert_eq.
    unfold isinstance_Spectrum, type_name. rewrite !lookup_insert_eq. simpl.
    by rewrite ?lookup_insert_eq.
Qed.

(** X10.  [DataCube.set_parent] refuses the parent that
    [DataCubeList.append] assigns.  After a datacube is appended to a list
    whose parent [dm] is an object of another class (a datamodel),
    [set_parent] on the stored object with that same [dm] fails its assertion; with a
    [DataCube] as parent it succeeds and replaces the parent. *)
Theorem set_parent_refuses_datamodel (self : FuzzyListObj) (dm l p : loc)
    (class_name : string) (q : option loc) (d dp : DataCube.t) (h : gmap loc instance) :
  list_parent self = Some dm ->
  h !! dm = Some (InstOther class_name q) ->
  h !! l = Some (InstDataCube d) ->
  h !! p = Some (InstDataCube dp) ->
  let o := DataCubeList_append self (VRef l) true h in
  let stored := fresh (dom h) in
  heap_after o !! stored = Some (InstDataCube (DataCube.set_parent_attr (Some dm) d))
  /\ DataCube_set_parent stored (VRef dm) (heap_after o)
     = Raise (Exn AssertionError (Text "parent must be a DataCube"))
  /\ exists h', DataCube_set_parent stored (VRef p) (heap_after o) = Ok h'
                /\ h' !! stored = Some (InstDataCube (DataCube.set_parent_attr (Some p) d)).
Proof.
  intros Hparent Hdm Hl Hp o stored. subst o stored.
  rewrite (append_copy_datacube self l d h Hl). simpl. rewrite Hparent.
  pose proof (is_fresh (dom h)) as Hfresh.
  assert (forall l0, l0 ∈ dom h -> fresh (dom h) <> l0) as Hne by (by intros l0 ? <-).
  split_and!.
  - by rewrite lookup_insert_eq.
  - unfold DataCube_set_parent, isinstance_DataCube.
    rewrite lookup_insert_ne by (apply Hne, elem_of_dom; by eexists). by rewrite Hdm.
  - unfold DataCube_set_parent, isinstance_DataCube.
    rewrite lookup_insert_ne by (apply Hne, elem_of_dom; by eexists). rewrite Hp.
    eexists. split; [done|]. rewrite lookup_alter_eq, lookup_insert_eq. done.
Qed.


Lemma append_no_copy_aliases_witness :
  DataCubeList_append empty_list (VRef 1%positive) false registry_heap
  = {| raised := None;
       heap_after := <[1%positive :=
                         InstDataCube (DataCube.set_parent_attr (Some 9%positive) flux_cube)]>
                       registry_heap;
       list_after := push empty_list 1%positive |}.
Proof.
  apply (append_no_copy_aliases empty_list 1%positive flux_cube registry_heap).
  vm_compute. reflexivity.
Defined.

Lemma append_no_copy_marks_rejected_witness :
  let o := DataCubeList_append empty_list (VRef 3%positive) false registry_heap in
  raised o = Some (Exn ValueError
                       (Format "invalid datacube of type {!r}" [ReprType "Spectrum"]))
  /\ list_after o = empty_list
  /\ heap_after o !! 3%positive
     = Some (InstSpectrum (Spectrum.set_parent_attr (Some 9%positive) specres)).
Proof.
  apply (append_no_copy_marks_rejected empty_list 3%positive specres registry_heap).
  vm_compute. reflexivity.
Defined.

(** The datacube 1 listed twice gives two objects. *)
Lemma init_copies_every_item_witness :
  let o := DataCubeList_init [VRef 1%positive; VRef 2%positive; VRef 1%positive]
                             (Some 9%positive) registry_heap in
  raised o = None
  /\ list_parent (list_after o) = Some 9%positive
  /\ NoDup (list_items (list_after o))
  /\ length (list_items (list_after o)) = 3%nat.
Proof.
  intros o. subst o.
  destruct (init_copies_every_item [VRef 1%positive; VRef 2%positive; VRef 1%positive]
              (Some 9%positive) registry_heap)
    as (Hraised & Hparent & _ & Hnodup & _ & Hall).
  { repeat constructor.
    - exists 1%positive, flux_cube. split; vm_compute; reflexivity.
    - exists 2%positive, (datacube "dispersion" "DISP"). split; vm_compute; reflexivity.
    - exists 1%positive, flux_cube. split; vm_compute; reflexivity. }
  split_and!; [done..|]. by rewrite <-(Forall2_length _ _ _ Hall).
Defined.

(** The datacube before the string is stored as one new object, the
    datacube after it is not. *)
Lemma init_stops_at_first_atom_witness :
  let o := DataCubeList_extend empty_list [VRef 1%positive; VStr "flux"; VRef 2%positive]
                               registry_heap in
  (exists e, raised o = Some e /\ exn_cls e = AttributeError)
  /\ exists l', list_items (list_after o) = [l']
       /\ (l' ∉ dom registry_heap)
       /\ heap_after o !! l'
          = Some (InstDataCube (DataCube.set_parent_attr (Some 9%positive) flux_cube)).
Proof.
  destruct (init_stops_at_first_atom empty_list [VRef 1%positive] [VRef 2%positive]
              (VStr "flux") registry_heap)
    as (Hraised & _ & _ & _ & new & Hitems & _ & Hnew & Hall).
  - repeat constructor. exists 1%positive, flux_cube. split; vm_compute; reflexivity.
  - done.
  - split; [exact Hraised|].
    apply Forall2_cons_inv_l in Hall as (l' & new' & Hl' & Hnil & ->).
    apply Forall2_nil_inv_l in Hnil as ->.
    exists l'. split_and!.
    + exact Hitems.
    + by apply Forall_cons in Hnew as [? _].
    + apply (Hl' 1%positive flux_cube); [reflexivity|vm_compute; reflexivity].
Defined.

Lemma spectrum_append_witness :
  raised (SpectrumList_append empty_list (VRef 3%positive) true registry_heap) = None
  /\ raised (SpectrumList_append empty_list (VRef 1%positive) true registry_heap)
     = Some (Exn ValueError (Format "invalid spectrum of type {!r}" [ReprType "DataCube"])).
Proof.
  split.
  - rewrite (proj1 (spectrum_append empty_list 3%positive registry_heap) specres);
      [reflexivity|vm_compute; reflexivity].
  - apply (proj2 (spectrum_append empty_list 1%positive registry_heap) flux_cube).
    vm_compute. reflexivity.
Defined.

Lemma set_parent_refuses_datamodel_witness :
  let o := DataCubeList_append empty_list (VRef 1%positive) true registry_heap in
  DataCube_set_parent (fresh (dom registry_heap)) (VRef 9%positive) (heap_after o)
  = Raise (Exn AssertionError (Text "parent must be a DataCube")).
Proof.
  apply (set_parent_refuses_datamodel empty_list 9%positive 1%positive 2%positive
           "DRPDataModel" None flux_cube (datacube "dispersion" "DISP") registry_heap);
    vm_compute; reflexivity.
Defined.

(** *** db_column and to_table *)

(** X11.  [DataCube.db_column] returns lower-case names only: the
    [full] name without [ext], the lower-cased ivar or mask extension for
    [ext='ivar'] and [ext='mask'] when the datacube has it.  Every other
    call fails an assertion. *)
Theorem datacube_db_column_names (self : DataCube.t) (ext : option string) :
  (forall c, DataCube_db_column self ext = Ok c ->
     islower c = true
     /\ (ext = None /\ c = DataCube.full self
         \/ (ext = Some "ivar"
             /\ exists x, DataCube.extension_ivar self = Some x /\ c = lower x)
         \/ (ext = Some "mask"
             /\ exists x, DataCube.extension_mask self = Some x /\ c = lower x)))
  /\ (forall e, DataCube_db_column self ext = Raise e ->
         exn_cls e = AssertionError /\ ext <> None).
Proof.
  unfold DataCube_db_column. destruct ext as [e0|].
  2: { split; [|done]. intros c [= <-]. split; [apply Letters.islower_lower|by left]. }
  destruct (bool_decide (e0 ∈ ["ivar"; "mask"])) eqn:Hin; simpl.
  2: { split; [done|]. by intros e [= <-]. }
  apply bool_decide_eq_true in Hin.
  destruct (decide (e0 = "ivar")) as [->|Hne].
  - destruct (DataCube.extension_ivar self) as [x|]; split; try done.
    + intros c [= <-]. split; [apply Letters.islower_lower|]. right. left. eauto.
    + by intros e [= <-].
  - assert (e0 = "mask") as ->.
    { apply elem_of_cons in Hin as [?|Hin]; [done|]. by apply list_elem_of_singleton in Hin. }
    destruct (DataCube.extension_mask self) as [x|]; split; try done.
    + intros c [= <-]. split; [apply Letters.islower_lower|]. right. right. eauto.
    + by intros e [= <-].
Qed.

(** X12.  [Spectrum.db_column] returns lower-case names only; an [ext]
    other than ['std'] is a ValueError, and ['std'] on a spectrum without
    [extension_std] is an AttributeError. *)
Theorem spectrum_db_column_names (self : Spectrum.t) (ext : option string) :
  (forall c, Spectrum_db_column self ext = Ok c -> islower c = true)
  /\ (forall e0, ext = Some e0 -> e0 <> "std" ->
         Spectrum_db_column self ext = Raise (Exn ValueError (Text "invalid extension.")))
  /\ (ext = Some "std" -> Spectrum.extension_std self = None ->
       raises (Spectrum_db_column self ext) AttributeError).
Proof.
  unfold Spectrum_db_column. split_and!.
  - intros c. destruct ext as [e0|].
    + case_decide; [|done]. destruct (Spectrum.extension_std self); [|done].
      intros [= <-]. apply Letters.islower_lower.
    + intros [= <-]. apply Letters.islower_lower.
  - intros e0 -> Hne. by rewrite decide_False.
  - intros -> ->. by rewrite decide_True.
Qed.

Lemma datacube_db_column_names_witness :
  islower "ivar" = true.
Proof.
  apply (proj1 (datacube_db_column_names flux_cube (Some "ivar")) "ivar"). reflexivity.
Defined.

Lemma spectrum_db_column_names_witness :
  Spectrum_db_column specres (Some "ivar") = Raise (Exn ValueError (Text "invalid extension."))
  /\ raises (Spectrum_db_column (spectrum "disp" "DISP") (Some "std")) AttributeError.
Proof.
  split.
  - by apply (proj1 (proj2 (spectrum_db_column_names specres (Some "ivar"))) "ivar").
  - by apply (proj2 (proj2 (spectrum_db_column_names (spectrum "disp" "DISP") (Some "std")))).
Defined.

(** X14.  [SpectrumList.to_table] works on the empty list only: with a
    spectrum in the list it raises the AttributeError of
    [spectrum.extension_ivar], an attribute that no spectrum has,
    whatever [pprint] and [description] are. *)
Theorem spectrum_table_fails (parent : option DRPDataModel) (items : list Spectrum.t)
    (pprint description : bool) :
  (items <> [] ->
   SpectrumList_to_table parent items pprint description
   = Raise (Exn AttributeError
                (Format "{!r} object has no attribute {!r}"
                        [Repr "Spectrum"; Repr "extension_ivar"])))
  /\ (items = [] -> pprint = false ->
      exists t, SpectrumList_to_table parent items pprint description = Ok (Some t)
                /\ rows t = []).
Proof.
  unfold SpectrumList_to_table. split.
  - destruct items as [|spectrum items]; [done|]. intros _. reflexivity.
  - intros -> ->. simpl. destruct description; eexists; split; done.
Qed.

Lemma spectrum_table_fails_witness :
  SpectrumList_to_table (Some mpl6) (spectra mpl6) false true
  = Raise (Exn AttributeError
               (Format "{!r} object has no attribute {!r}"
                       [Repr "Spectrum"; Repr "extension_ivar"])).
Proof.
  by apply (proj1 (spectrum_table_fails (Some mpl6) (spectra mpl6) false true)).
Defined.

End DrpLists.

(** ** More on the constructor and the loaders of Map *)

Module MapMore.
Import MapTool Methods Samples MoreSamples MapInit MapDb.

Lemma reshape_is_grid {scalar} (l : list scalar) (shape : nat * nat) (a : ndarray scalar) :
  reshape l shape = Ok a -> is_grid shape a.
Proof.
  unfold reshape. case_decide as Hlen; [|done]. intros [= <-].
  exists (chunks shape.1 shape.2 l). split_and!; [done|apply chunks_length|by apply chunks_rows].
Qed.


Section facts.
Context {scalar : Type}.
Variable StrictVersion : string -> option strict_version.
Variable Interaction : message -> list (string * string) -> result (Response scalar).
Variable getmap_url : string.

Local Abbreviation Map_init := (Map_init StrictVersion Interaction getmap_url).
Local Abbreviation _load_map_from_db := (_load_map_from_db StrictVersion).
Local Abbreviation _load_map_from_api := (_load_map_from_api Interaction getmap_url).

Ltac unfold_result :=
  unfold mbind, result_bind, fmap, result_fmap, mret, result_ret in *.

(** What the constructor returns is a loader's work on the object it
    set up. *)
Lemma init_Ok (maps : Maps.t scalar) (property_name : string) (channel : option string)
    (m : Map.t scalar) (w : list warning) :
  Map_init maps property_name channel = Ok (m, w) ->
  exists maps_property,
    Maps.properties maps (lower property_name) = Some maps_property
    /\ (forall channels, MapsProperty.channels maps_property = Some channels ->
                         channel_not_in (lower_channel channel) channels = false)
    /\ let self := Map.unloaded maps (lower property_name) (lower_channel channel)
                                maps_property in
       (Maps.data_origin maps = "file" /\ w = [] /\ _load_map_from_file self = Ok m)
       \/ (Maps.data_origin maps = "db" /\ _load_map_from_db self = Ok (m, w))
       \/ (Maps.data_origin maps = "api" /\ w = [] /\ _load_map_from_api self = Ok m)
       \/ (m = self /\ w = [] /\ Maps.data_origin maps <> "file"
           /\ Maps.data_origin maps <> "db" /\ Maps.data_origin maps <> "api").
Proof.
  unfold MapTool.Map_init.
  destruct (Maps.properties maps (lower property_name)) as [p|]; [|done].
  intros H. exists p. split; [done|].
  assert (forall channels, MapsProperty.channels p = Some channels ->
                           channel_not_in (lower_channel channel) channels = false) as Hcheck.
  { intros channels Hc. rewrite Hc in H. by destruct (channel_not_in _ _). }
  split; [done|].
  assert ((if match MapsProperty.channels p with
              | Some channels => channel_not_in (lower_channel channel) channels
              | None => false
              end then true else false) = false) as Hpass.
  { destruct (MapsProperty.channels p) as [channels|]; [|done]. by rewrite (Hcheck channels). }
  destruct (match MapsProperty.channels p with
            | Some channels => channel_not_in (lower_channel channel) channels
            | None => false
            end); [done|]. clear Hpass.
  unfold_result. simpl. repeat case_decide.
  - left. destruct (_load_map_from_file _) as [m'|]; [|done]. by injection H as <- <-.
  - right. left. done.
  - right. right. left. destruct (MapTool._load_map_from_api _ _ _) as [m'|]; [|done].
    by injection H as <- <-.
  - right. right. right. by injection H as <- <-.
Qed.

(** X15.  A [Map] that has been built keeps the [Maps] object and its
    shape; its [maps_property] is the entry of [maps.properties] under its
    own [property_name]; and when that entry has a list of channels, the
    channel of the map is one of them. *)
Theorem init_registry_invariant (maps : Maps.t scalar) (property_name : string)
    (channel : option string) (m : Map.t scalar) (w : list warning) :
  Map_init maps property_name channel = Ok (m, w) ->
  Map.maps m = maps
  /\ Map.shape m = Maps.shape maps
  /\ Maps.properties maps (Map.property_name m) = Some (Map.maps_property m)
  /\ (forall channels,
        MapsProperty.channels (Map.maps_property m) = Some channels ->
        exists c, Map.channel m = Some c /\ c ∈ channels).
Proof.
  intros H. destruct (init_Ok _ _ _ _ _ H) as (p & Hp & Hcheck & Hload).
  assert (exists value ivar mask header unit,
             m = Map.loaded (Map.unloaded maps (lower property_name) (lower_channel channel) p)
                            value ivar mask header unit) as (? & ? & ? & ? & ? & ->).
  { destruct Hload as [(_ & _ & Hm)|[(_ & Hm)|[(_ & _ & Hm)|(-> & _)]]].
    - by apply file_loaded in Hm.
    - by eapply db_loaded in Hm.
    - by eapply api_loaded in Hm.
    - by exists None, None, None, None, None. }
  simpl. split_and!; [done..|].
  intros channels Hc. specialize (Hcheck channels Hc). unfold channel_not_in in Hcheck.
  destruct (lower_channel channel) as [c|]; [|done].
  exists c. split; [done|]. apply negb_false_iff in Hcheck. by apply bool_decide_eq_true in Hcheck.
Qed.

(** X16.  The constructor emits at most one warning, and only for the
    database origin: the warning about the header, and then the header of
    the map is [None]. *)
Theorem init_warnings (maps : Maps.t scalar) (property_name : string)
    (channel : option string) (m : Map.t scalar) (w : list warning) :
  Map_init maps property_name channel = Ok (m, w) ->
  w = []
  \/ (Maps.data_origin maps = "db"
      /\ w = [header_warning (Map.maps_property m)]
      /\ Map.header m = None).
Proof.
  intros H. destruct (init_Ok _ _ _ _ _ H) as (p & Hp & Hcheck & Hload).
  destruct Hload as [(_ & -> & _)|[(Horigin & Hm)|[(_ & -> & _)|(_ & -> & _)]]];
    [by left| |by left..].
  unfold MapTool._load_map_from_db in Hm. unfold_result.
  destruct (db_arrays _ _) as [[[value ivar] mask]|]; [|done]. simpl in Hm.
  destruct (db_hdus _) as [hdus|]; [|done]. simpl in Hm.
  destruct (not_dict _); injection Hm as <- <-; [right|left]; done.
Qed.

(** X17.  A channel given for a property that has no list of channels
    passes the test of the constructor; on a file the loader then ends in
    an AttributeError, from [channels.index] on [None]. *)
Theorem file_channel_without_channels (maps : Maps.t scalar) (property_name channel : string)
    (maps_property : MapsProperty.t)
    (hdu_by_name : string -> option (ImageHDU.t scalar)) (hdu : ImageHDU.t scalar) :
  Maps.data_origin maps = "file" ->
  Maps.data maps = Maps.HDUList hdu_by_name ->
  hdu_by_name (lower property_name) = Some hdu ->
  Maps.properties maps (lower property_name) = Some maps_property ->
  MapsProperty.channels maps_property = None ->
  truthy channel = true ->
  Map_init maps property_name (Some channel)
  = Raise (Exn AttributeError
               (Format "{!r} object has no attribute {!r}" [Repr "NoneType"; Repr "index"])).
Proof.
  intros Horigin Hdata Hhdu Hp Hc Htruthy. unfold MapTool.Map_init.
  rewrite Hp, Hc, Horigin. simpl. rewrite Htruthy.
  unfold _load_map_from_file, channels_index. simpl. rewrite Hdata. simpl.
  by rewrite Hhdu, Hc.
Qed.

(** X18.  For a property without channels and no channel given, the
    file loader takes the whole array of the extension named like the
    property, the arrays of the [_ivar] and [_mask] extensions when the
    property has them and [None] otherwise, the header of the extension and
    the unit of the property; no warning is emitted. *)
Theorem file_whole_extension (maps : Maps.t scalar) (property_name : string)
    (maps_property : MapsProperty.t) (unit : option string)
    (hdu_by_name : string -> option (ImageHDU.t scalar)) (hdu hdu_ivar hdu_mask : ImageHDU.t scalar) :
  Maps.data_origin maps = "file" ->
  Maps.data maps = Maps.HDUList hdu_by_name ->
  Maps.properties maps (lower property_name) = Some maps_property ->
  MapsProperty.channels maps_property = None ->
  MapsProperty.unit maps_property = MapsProperty.UnitOne unit ->
  hdu_by_name (lower property_name) = Some hdu ->
  (MapsProperty.ivar maps_property = true ->
   hdu_by_name (lower property_name +:+ "_ivar") = Some hdu_ivar) ->
  (MapsProperty.mask maps_property = true ->
   hdu_by_name (lower property_name +:+ "_mask") = Some hdu_mask) ->
  Map_init maps property_name None
  = Ok (Map.loaded (Map.unloaded maps (lower property_name) None maps_property)
                   (Some (ImageHDU.data hdu))
                   (if MapsProperty.ivar maps_property then Some (ImageHDU.data hdu_ivar) else None)
                   (if MapsProperty.mask maps_property then Some (ImageHDU.data hdu_mask) else None)
                   (Some (ImageHDU.header hdu))
                   unit,
        []).
Proof.
  intros Horigin Hdata Hp Hc Hunit Hhdu Hivar Hmask. unfold MapTool.Map_init.
  rewrite Hp, Hc, Horigin. simpl.
  unfold _load_map_from_file, file_unit. simpl. rewrite Hdata, Hunit. simpl. rewrite Hhdu. simpl.
  destruct (MapsProperty.ivar maps_property); [rewrite Hivar by done|];
    (destruct (MapsProperty.mask maps_property); [rewrite Hmask by done|]); done.
Qed.

(** X19.  A property of the registry whose extension the file does not
    hold: the constructor ends in the KeyError of the file. *)
Theorem file_missing_extension (maps : Maps.t scalar) (property_name : string)
    (channel : option string) (maps_property : MapsProperty.t)
    (hdu_by_name : string -> option (ImageHDU.t scalar)) :
  Maps.data_origin maps = "file" ->
  Maps.data maps = Maps.HDUList hdu_by_name ->
  Maps.properties maps (lower property_name) = Some maps_property ->
  (forall channels, MapsProperty.channels maps_property = Some channels ->
                    channel_not_in (lower_channel channel) channels = false) ->
  hdu_by_name (lower property_name) = None ->
  Map_init maps property_name channel
  = Raise (Exn KeyError (Format "Extension {!r} not found." [Repr (lower property_name)])).
Proof.
  intros Horigin Hdata Hp Hcheck Hhdu. unfold MapTool.Map_init. rewrite Hp.
  assert (match MapsProperty.channels maps_property with
          | Some channels => channel_not_in (lower_channel channel) channels
          | None => false
          end = false) as ->.
  { destruct (MapsProperty.channels maps_property) as [channels|]; [|done]. by apply Hcheck. }
  rewrite Horigin. simpl.
  unfold _load_map_from_file. simpl. rewrite Hdata. simpl. by rewrite Hhdu.
Qed.
End facts.

Section database.
Context {scalar : Type}.
Variable StrictVersion : string -> option strict_version.

Local Abbreviation _load_map_from_db := (_load_map_from_db StrictVersion).

Ltac unfold_result :=
  unfold mbind, result_bind, fmap, result_fmap, mret, result_ret in *.

Lemma db_array_is_grid (spaxels : list (SpaxelProp.t scalar)) (order : list nat)
    (column : string) (shape : nat * nat) (a : ndarray scalar) :
  db_array spaxels order column shape = Ok a -> is_grid shape a.
Proof.
  unfold db_array. unfold_result.
  destruct (for_each _ spaxels) as [values|]; [|done].
  destruct (fancy_index values order) as [ordered|]; [|done].
  apply reshape_is_grid.
Qed.

Lemma db_load_arrays (self m : Map.t scalar) (w : list warning) :
  _load_map_from_db self = Ok (m, w) ->
  exists value, Map.value m = Some value
                /\ db_arrays StrictVersion self = Ok (value, Map.ivar m, Map.mask m).
Proof.
  unfold MapTool._load_map_from_db. unfold_result.
  destruct (db_arrays _ _) as [[[value ivar] mask]|]; [|done]. simpl.
  destruct (db_hdus _) as [hdus|]; [|done]. simpl.
  destruct (not_dict _); intros [= <- <-]; simpl; eauto.
Qed.

(** X20.  The arrays of a map loaded from the database have the shape of
    the map: [value] always, [ivar] and [mask] when the property has
    them. *)
Theorem db_arrays_have_shape (self m : Map.t scalar) (w : list warning) :
  _load_map_from_db self = Ok (m, w) ->
  (exists value, Map.value m = Some value /\ is_grid (Map.shape self) value)
  /\ (MapsProperty.ivar (Map.maps_property self) = true ->
      exists ivar, Map.ivar m = Some ivar /\ is_grid (Map.shape self) ivar)
  /\ (MapsProperty.mask (Map.maps_property self) = true ->
      exists mask, Map.mask m = Some mask /\ is_grid (Map.shape self) mask).
Proof.
  intros H. apply db_load_arrays in H as (value & Hvalue & Harrays).
  unfold db_arrays, db_arrays_of in Harrays. unfold_result.
  destruct (db_spaxels _ _) as [spaxels|]; [|done].
  destruct (db_array spaxels _ _ _) as [value'|] eqn:Hv; [|done].
  destruct (MapsProperty.ivar _) eqn:Hhas_ivar;
    destruct (MapsProperty.mask _) eqn:Hhas_mask;
    repeat match goal with
           | H : context [match db_array ?a ?b ?c ?d with _ => _ end] |- _ =>
             let Heq := fresh "Harray" in destruct (db_array a b c d) eqn:Heq; [|done]
           end;
    injection Harrays as <- Hi Hm; rewrite <-?Hi, <-?Hm;
    (split_and!; [eexists; split; [done|by eapply db_array_is_grid] | |]);
    intros ?; try done; eexists; split; try done; by eapply db_array_is_grid.
Qed.

(** X21.  When the number of rows read is not the number of spaxels of
    the shape, the database loader does not complete: it ends in the
    ValueError of [reshape], or in the AttributeError of a missing
    column. *)
Theorem db_wrong_row_count (self : Map.t scalar) (spaxels : list (SpaxelProp.t scalar)) :
  db_spaxels StrictVersion self = Ok spaxels ->
  length spaxels <> ((Map.shape self).1 * (Map.shape self).2)%nat ->
  exists e, _load_map_from_db self = Raise e
            /\ (exn_cls e = ValueError \/ exn_cls e = AttributeError).
Proof.
  intros Hspaxels Hlen.
  assert (exists e, db_array spaxels (argsort (SpaxelProp.spaxel_index <$> spaxels))
                      (MapsProperty.fullname (Map.maps_property self) (Map.channel self) None)
                      (Map.shape self) = Raise e
                    /\ (exn_cls e = ValueError \/ exn_cls e = AttributeError))
    as (e & He & Hcls).
  { rewrite db_array_raster. unfold raster_array. unfold_result.
    destruct (for_each _ (rows_in_order spaxels)) as [values|e] eqn:Hvalues.
    - apply for_each_length in Hvalues.
      unfold reshape. rewrite decide_False; [eauto|].
      rewrite Hvalues, (Permutation_length (rows_in_order_Permutation spaxels)). done.
    - apply for_each_Raise in Hvalues as (spaxel & _ & Hget).
      apply getattr_Raise in Hget as ->. eauto. }
  exists e. split; [|done].
  unfold MapTool._load_map_from_db, db_arrays, db_arrays_of. rewrite Hspaxels. simpl.
  by rewrite He.
Qed.

(** X22.  A row of the database that lacks the column of the property
    ends the loader in the AttributeError of that column. *)
Theorem db_missing_column (self : Map.t scalar) (spaxels : list (SpaxelProp.t scalar))
    (spaxel : SpaxelProp.t scalar) :
  db_spaxels StrictVersion self = Ok spaxels ->
  spaxel ∈ spaxels ->
  SpaxelProp.columns spaxel
    !! MapsProperty.fullname (Map.maps_property self) (Map.channel self) None = None ->
  _load_map_from_db self
  = Raise (Exn AttributeError
               (Format "{!r} object has no attribute {!r}"
                       [Repr "SpaxelProp";
                        Repr (MapsProperty.fullname (Map.maps_property self)
                                                    (Map.channel self) None)])).
Proof.
  intros Hspaxels Hin Hcolumn.
  unfold MapTool._load_map_from_db, db_arrays, db_arrays_of. rewrite Hspaxels. simpl.
  unfold db_array.
  set (column := MapsProperty.fullname (Map.maps_property self) (Map.channel self) None) in *.
  assert (for_each (fun spaxel => SpaxelProp.getattr spaxel column) spaxels
          = Raise (Exn AttributeError
                       (Format "{!r} object has no attribute {!r}"
                               [Repr "SpaxelProp"; Repr column]))) as ->; [|reflexivity].
  apply (for_each_Raise_same _ spaxels _ spaxel); [|done|].
  - intros y e' Hy. by apply getattr_Raise in Hy.
  - unfold SpaxelProp.getattr. by rewrite Hcolumn.
Qed.

(** X23.  The header of a map loaded from the database is the dict of
    the first header row named like the property, whatever the case of
    letters, and then no warning is emitted; unless that dict is empty,
    in which case the header is left as it was and the warning is emitted
    although a row matched. *)
Theorem db_header_of_first_match (self : Map.t scalar)
    (spaxelprops spaxelprops5 : list (SpaxelProp.t scalar)) (hdus : list HDURow.t)
    (k : nat) (hdu : HDURow.t)
    (value : ndarray scalar) (ivar mask : option (ndarray scalar)) :
  Maps.data (Map.maps self) = Maps.DBFile spaxelprops spaxelprops5 hdus ->
  db_arrays StrictVersion self = Ok (value, ivar, mask) ->
  hdus !! k = Some hdu ->
  upper (MapsProperty.name (Map.maps_property self)) = upper (HDURow.extname_name hdu) ->
  (forall j hdu', hdus !! j = Some hdu' -> (j < k)%nat ->
                  upper (MapsProperty.name (Map.maps_property self))
                  <> upper (HDURow.extname_name hdu')) ->
  (HDURow.header_to_dict hdu <> ∅ ->
   _load_map_from_db self
   = Ok (Map.loaded self (Some value) ivar mask
                    (Some (FitsHeader (HDURow.header_to_dict hdu))) (Map.unit self), []))
  /\ (HDURow.header_to_dict hdu = ∅ ->
      _load_map_from_db self
      = Ok (Map.loaded self (Some value) ivar mask (Map.header self) (Map.unit self),
            [header_warning (Map.maps_property self)])).
Proof.
  intros Hdata Harrays Hk Hname Hfirst.
  assert (find_header_dict (Map.maps_property self) hdus = Some (HDURow.header_to_dict hdu))
    as Hfind.
  { unfold find_header_dict.
    rewrite (proj2 (list_find_Some _ hdus k hdu)); [done|]. by split_and!. }
  unfold MapTool._load_map_from_db. rewrite Harrays, Hdata. simpl. rewrite Hfind. simpl.
  split.
  - intros Hdict. by rewrite bool_decide_eq_false_2.
  - intros Hdict. by rewrite bool_decide_eq_true_2.
Qed.

End database.

Section remote.
Context {scalar : Type}.
Variable Interaction : message -> list (string * string) -> result (Response scalar).
Variable getmap_url : string.

(** X25.  An answer of the server without data and without an [error]
    entry ends the remote loader in a KeyError, not in a MarvinError. *)
Theorem api_error_entry_missing (self : Map.t scalar) (response : Response scalar) :
  Interaction (url_full getmap_url self) (params self) = Ok response ->
  getData response = None ->
  results response !! "error" = None ->
  _load_map_from_api Interaction getmap_url self = Raise (Exn KeyError (Repr "error")).
Proof.
  intros Hresponse Hdata Herror. unfold _load_map_from_api, dict_getitem.
  by rewrite Hresponse, Hdata, Herror.
Qed.

(** X26.  [Map.plot] chooses the array by the lower-cased name: two
    names that differ in the case of letters choose the same array; the
    name must be [value], [ivar] or [mask], else the assertion fails; and
    without matplotlib the call ends in MarvinMissingDependency whatever
    the name is. *)
Theorem plot_data_by_name (self : Map.t scalar) (array : string) :
  (forall array', recased array array' ->
     plot_data true self array = plot_data true self array')
  /\ (forall data, plot_data true self array = Ok data ->
         lower array = "value" /\ data = Map.value self
         \/ lower array = "ivar" /\ data = Map.ivar self
         \/ lower array = "mask" /\ data = Map.mask self)
  /\ (lower array ∉ ["value"; "ivar"; "mask"] ->
      raises (plot_data true self array) AssertionError)
  /\ raises (plot_data false self array) (OtherError "MarvinMissingDependency").
Proof.
  unfold plot_data. simpl. split_and!; [| | |done].
  - intros array' Hcase. by rewrite (Letters.recased_lower array array').
  - intros data. case_bool_decide as Hin; simpl; [|done].
    repeat case_decide; intros [= <-]; [by left|by right; left|right; right].
    split; [|done].
    apply elem_of_cons in Hin as [?|Hin]; [done|].
    apply elem_of_cons in Hin as [?|Hin]; [done|]. by apply list_elem_of_singleton in Hin.
  - intros Hout. by rewrite bool_decide_eq_false_2.
Qed.
End remote.

Lemma init_registry_invariant_witness :
  exists m w,
    Map_init parse_version server_ok url from_file "EMLINE_GFLUX" (Some "Hb_4862") = Ok (m, w)
    /\ Maps.properties from_file (Map.property_name m) = Some (Map.maps_property m)
    /\ (forall channels,
          MapsProperty.channels (Map.maps_property m) = Some channels ->
          exists c, Map.channel m = Some c /\ c ∈ channels).
Proof.
  destruct (Map_init parse_version server_ok url from_file "EMLINE_GFLUX" (Some "Hb_4862"))
    as [[m w]|e] eqn:Hinit; [|by vm_compute in Hinit].
  exists m, w. split; [done|].
  by destruct (init_registry_invariant parse_version server_ok url from_file
                 "EMLINE_GFLUX" (Some "Hb_4862") m w Hinit) as (_ & _ & ? & ?).
Defined.

Lemma init_warnings_witness :
  exists m w,
    Map_init parse_version server_ok url (from_db rows_shuffled) "emline_gflux" (Some "hb_4862")
    = Ok (m, w)
    /\ (w = [] \/ (Maps.data_origin (from_db rows_shuffled) = "db"
                    /\ w = [header_warning (Map.maps_property m)]
                    /\ Map.header m = None)).
Proof.
  destruct (Map_init parse_version server_ok url (from_db rows_shuffled)
                     "emline_gflux" (Some "hb_4862"))
    as [[m w]|e] eqn:Hinit; [|by vm_compute in Hinit].
  exists m, w. split; [done|].
  exact (init_warnings parse_version server_ok url (from_db rows_shuffled)
                       "emline_gflux" (Some "hb_4862") m w Hinit).
Defined.

Lemma file_channel_without_channels_witness :
  Map_init parse_version server_ok url vel_file "stellar_vel" (Some "ha_6564")
  = Raise (Exn AttributeError
               (Format "{!r} object has no attribute {!r}" [Repr "NoneType"; Repr "index"])).
Proof.
  apply (file_channel_without_channels parse_version server_ok url vel_file
           "stellar_vel" "ha_6564" stellar_vel
           (fun ext =>
              if decide (ext = "stellar_vel") then Some (vel_hdu [[10; 20]; [30; 40]])
              else if decide (ext = "stellar_vel_ivar") then Some (vel_hdu [[1; 1]; [1; 1]])
              else if decide (ext = "stellar_vel_mask") then Some (vel_hdu [[0; 0]; [0; 1]])
              else None)
           (vel_hdu [[10; 20]; [30; 40]])); reflexivity.
Defined.

Lemma file_whole_extension_witness :
  Map.ivar ∘ fst <$> Map_init parse_version server_ok url vel_file "Stellar_Vel" None
  = Ok (Some (array2 [[1; 1]; [1; 1]])).
Proof.
  rewrite (file_whole_extension parse_version server_ok url vel_file "Stellar_Vel" stellar_vel
             (Some "km/s")
             (fun ext =>
                if decide (ext = "stellar_vel") then Some (vel_hdu [[10; 20]; [30; 40]])
                else if decide (ext = "stellar_vel_ivar") then Some (vel_hdu [[1; 1]; [1; 1]])
                else if decide (ext = "stellar_vel_mask") then Some (vel_hdu [[0; 0]; [0; 1]])
                else None)
             (vel_hdu [[10; 20]; [30; 40]]) (vel_hdu [[1; 1]; [1; 1]])
             (vel_hdu [[0; 0]; [0; 1]])); reflexivity.
Defined.

Lemma file_missing_extension_witness :
  Map_init parse_version server_ok url from_file "stellar_vel" None
  = Raise (Exn KeyError (Format "Extension {!r} not found." [Repr "stellar_vel"])).
Proof.
  apply (file_missing_extension parse_version server_ok url from_file "stellar_vel" None
           stellar_vel
           (fun ext => if decide (ext = "emline_gflux") then Some maps_file else None));
    try reflexivity.
  intros channels [=].
Defined.

Lemma db_arrays_have_shape_witness :
  exists m w,
    _load_map_from_db parse_version
      (Map.unloaded (from_db rows_shuffled) "stellar_vel" None stellar_vel) = Ok (m, w)
    /\ exists value, Map.value m = Some value /\ is_grid (2, 2)%nat value.
Proof.
  destruct (_load_map_from_db parse_version
              (Map.unloaded (from_db rows_shuffled) "stellar_vel" None stellar_vel))
    as [[m w]|e] eqn:Hload; [|by vm_compute in Hload].
  exists m, w. split; [done|].
  exact (proj1 (db_arrays_have_shape parse_version _ m w Hload)).
Defined.

Lemma db_wrong_row_count_witness :
  exists e,
    _load_map_from_db parse_version
      (Map.unloaded (from_db rows_short) "stellar_vel" None stellar_vel) = Raise e
    /\ (exn_cls e = ValueError \/ exn_cls e = AttributeError).
Proof.
  apply (db_wrong_row_count parse_version
           (Map.unloaded (from_db rows_short) "stellar_vel" None stellar_vel) rows_short).
  - vm_compute. reflexivity.
  - simpl. lia.
Defined.

Lemma db_missing_column_witness :
  _load_map_from_db parse_version
    (Map.unloaded (from_db rows_no_column) "stellar_vel" None stellar_vel)
  = Raise (Exn AttributeError
               (Format "{!r} object has no attribute {!r}"
                       [Repr "SpaxelProp"; Repr "stellar_vel"])).
Proof.
  apply (db_missing_column parse_version
           (Map.unloaded (from_db rows_no_column) "stellar_vel" None stellar_vel)
           rows_no_column
           (SpaxelProp.Make 1 {[ "emline_gflux_ha_6564" := 2; "emline_gflux_hb_4862" := 6 ]})).
  - vm_compute. reflexivity.
  - unfold rows_no_column. apply list_elem_of_further, list_elem_of_here.
  - vm_compute. reflexivity.
Defined.

Lemma db_header_of_first_match_witness :
  (snd <$> _load_map_from_db parse_version
     (Map.unloaded (from_db_with rows_raster header_rows) "stellar_vel" None stellar_vel))
  = Ok []
  /\ (snd <$> _load_map_from_db parse_version
        (Map.unloaded (from_db_with rows_raster header_rows_empty) "stellar_vel" None stellar_vel))
     = Ok [header_warning stellar_vel].
Proof.
  split.
  - rewrite (proj1 (db_header_of_first_match parse_version
               (Map.unloaded (from_db_with rows_raster header_rows) "stellar_vel" None stellar_vel)
               [] rows_raster header_rows 1%nat
               (HDURow.Make "STELLAR_VEL" {[ "BUNIT" := "km/s" ]})
               (array2 [[10; 20]; [30; 40]])
               (Some (array2 [[100; 200]; [300; 400]]))
               (Some (array2 [[0; 0]; [1; 1]]))
               eq_refl ltac:(vm_compute; reflexivity) eq_refl eq_refl
               ltac:(intros [|j] hdu' Hj Hlt; [injection Hj as <-; vm_compute; discriminate|lia])));
      [reflexivity|].
    vm_compute. discriminate.
  - rewrite (proj2 (db_header_of_first_match parse_version
               (Map.unloaded (from_db_with rows_raster header_rows_empty) "stellar_vel" None
                             stellar_vel)
               [] rows_raster header_rows_empty 1%nat
               (HDURow.Make "Stellar_Vel" ∅)
               (array2 [[10; 20]; [30; 40]])
               (Some (array2 [[100; 200]; [300; 400]]))
               (Some (array2 [[0; 0]; [1; 1]]))
               eq_refl ltac:(vm_compute; reflexivity) eq_refl eq_refl
               ltac:(intros [|j] hdu' Hj Hlt; [injection Hj as <-; vm_compute; discriminate|lia])));
      reflexivity.
Defined.


Lemma api_error_entry_missing_witness :
  _load_map_from_api server_mute url
    (Map.unloaded from_api "emline_gflux" (Some "hb_4862") emline_gflux)
  = Raise (Exn KeyError (Repr "error")).
Proof.
  apply (api_error_entry_missing server_mute url
           (Map.unloaded from_api "emline_gflux" (Some "hb_4862") emline_gflux)
           {| getData := None; results := {[ "status" := "-1" ]} |}); reflexivity.
Defined.

Lemma plot_data_by_name_witness :
  plot_data true (Map.unloaded from_api "emline_gflux" None emline_gflux) "IVAR"
  = plot_data true (Map.unloaded from_api "emline_gflux" None emline_gflux) "ivar"
  /\ raises (plot_data true (Map.unloaded from_api "emline_gflux" None emline_gflux) "flux")
            AssertionError.
Proof.
  split.
  - apply (proj1 (plot_data_by_name
                    (Map.unloaded from_api "emline_gflux" None emline_gflux) "IVAR")).
    vm_compute. tauto.
  - apply (proj1 (proj2 (proj2 (plot_data_by_name
                    (Map.unloaded from_api "emline_gflux" None emline_gflux) "flux")))).
    compute_done.
Defined.

End MapMore.
